(** * Laundry POS: order engine, ledger, reporting windows, token check, retention

    A shallow embedding of the handlers of [app/api_routes.py],
    [app/pos_routes.py], [app/utils.py], [app/auth.py] and [app/models.py],
    and the properties of the specification that can be settled on them.

    Conventions of the embedding
    - A [datetime] is a number of seconds since 1970-01-01T00:00:00 UTC; a
      [date] is a number of days since 1970-01-01.  One request reads the
      clock once ([now]).
    - The value of an amount is an exact rational; the rounding a storage
      engine applies to a [Numeric(10, 2)] column is not modelled.  How
      Python holds the number matters where a handler computes with it: a
      [Numeric] column read from the database and a [fields.Decimal] of a
      schema are [Decimal]s, [float(...)] of a form field is a [float], and
      an operator applied to a [Decimal] and a [float] raises [TypeError]
      ([Pos.repr], [Pos.arith]).  The API handlers compute with [Decimal]s
      and [int]s only.
    - The SQLAlchemy session is a pair of table sets: the rows that are
      committed and the rows this session has added and not yet committed.
      The unique index on the order number is checked on the rows.  What the
      storage engine answers otherwise to a flush or a commit is an input
      ([Env]); this covers any other constraint of the schema, such as the
      NOT NULL of [orders.total_amount] at the time of the flush.
    - Descriptions, receipt numbers and the primary keys of order items and
      ledger entries play no part in the handlers' decisions and are left
      out of the rows. *)

From Stdlib Require Import ZArith QArith Qround List String Bool Lia.
Import ListNotations.

Set Implicit Arguments.

Local Open Scope Z_scope.

(** ** Clock: [datetime], [date], [timedelta] *)

Module Clock.

Definition datetime := Z.
Definition date := Z.

Definition seconds_per_day : Z := 86400.

(** [timedelta(days=n)], [timedelta(hours=n)] as a number of seconds. *)
Definition timedelta_days (n : Z) : Z := n * seconds_per_day.
Definition timedelta_hours (n : Z) : Z := n * 3600.

(** [dt.date()], also SQL [func.date(col)]. *)
Definition date_of (dt : datetime) : date := dt / seconds_per_day.

(** [dt.replace(hour=0, minute=0, second=0, microsecond=0)] *)
Definition midnight (dt : datetime) : datetime := date_of dt * seconds_per_day.


End Clock.

Export Clock.

(** ** The rows of [app/models.py] *)

(** An order number [ORD-YYYYMMDD-NNNN] is kept as its two components, the
    calendar day and the per-day sequence value; rendering both into the
    string is injective. *)
Record OrderNumber := {
  on_day : date;
  on_seq : Z
}.

Definition order_number_eqb (a b : OrderNumber) : bool :=
  (on_day a =? on_day b)%Z && (on_seq a =? on_seq b)%Z.

Record User := {
  user_id : Z;
  username : string;
  role : string;
  is_active : bool
}.

Record Product := {
  product_id : Z;
  price : Q
}.

Record Order := {
  order_id : Z;
  order_number : OrderNumber;
  order_user_id : Z;
  customer_id : option Z;
  total_amount : option Q;       (* unset until the handler assigns it *)
  tax_amount : Q;                (* column default 0 *)
  discount_amount : Q;           (* column default 0 *)
  payment_method : string;
  status : string;               (* column default 'pending' *)
  notes : string;
  created_at : datetime;
  updated_at : datetime;
  completed_at : option datetime
}.

Record OrderItem := {
  item_order_id : Z;
  item_product_id : Z;
  quantity : Z;
  unit_price : Q;
  total_price : Q
}.

Record Transaction := {
  type : string;                 (* income, expense *)
  category : string;
  amount : Q;
  reference_type : option string; (* order, manual *)
  reference_id : option Z;
  txn_payment_method : string;
  txn_created_at : datetime;
  created_by : Z
}.

Record BackupLog := {
  backup_id : Z;
  filename : string;
  backup_status : string;        (* success, failed *)
  backup_created_at : datetime
}.

Record Settings := {
  tax_rate : Q
}.

(** [User.has_permission] *)
Definition User_has_permission (self : User) (permission : string) : bool :=
  if String.eqb (role self) "admin" then true
  else (* Add permission logic here *) true.

(** ** The session: committed rows and rows added but not yet committed *)

Inductive exn :=
| IntegrityError      (* a constraint of the storage layer is violated *)
| OperationalError    (* any other failure of the storage layer *)
| ValueError
| IndexError
| AttributeError
| KeyError
| TypeError           (* an operator applied to a [Decimal] and a [float] *)
| CSRFError
| ExpiredSignatureError
| InvalidTokenError.

Inductive result (A : Type) :=
| Ok (a : A)
| Raise (e : exn).

Arguments Ok {A} a.
Arguments Raise {A} e.

Record Tables := {
  orders : list Order;
  order_items : list OrderItem;
  transactions : list Transaction
}.

Definition no_rows : Tables :=
  {| orders := []; order_items := []; transactions := [] |}.

Definition union_rows (a b : Tables) : Tables :=
  {| orders := orders a ++ orders b;
     order_items := order_items a ++ order_items b;
     transactions := transactions a ++ transactions b |}.

Record Session := {
  products : list Product;
  settings : list Settings;
  committed : Tables;
  pending : Tables;
  flushes : nat                  (* INSERTs of an order sent so far *)
}.

(** What the storage layer answers to the flush of a new order and to a
    commit ([None]: it accepts), apart from the unique index on
    [orders.order_number], which is checked on the rows themselves. *)
Record Env := {
  flush_error : option exn;
  commit_error : option exn
}.

Definition storage_ok : Env := {| flush_error := None; commit_error := None |}.

Module Db.

(** Rows a query of this session sees: committed rows and its own flushed rows. *)
Definition visible (s : Session) : Tables := union_rows (committed s) (pending s).

(** Autoincrement primary key of [orders]: one more than the largest id in use. *)
Definition next_order_id (s : Session) : Z :=
  1 + fold_right Z.max 0 (map order_id (orders (visible s))).

(** [Product.query.get(id)] *)
Definition get_product (id : Z) (s : Session) : option Product :=
  find (fun p => (product_id p =? id)%Z) (products s).

(** [Order.query.get(id)] *)
Definition get_order (id : Z) (s : Session) : option Order :=
  find (fun o => (order_id o =? id)%Z) (orders (visible s)).

(** [Settings.query.first()] *)
Definition first_settings (s : Session) : option Settings := hd_error (settings s).

Definition with_pending (s : Session) (p : Tables) : Session :=
  {| products := products s; settings := settings s;
     committed := committed s; pending := p; flushes := flushes s |}.

(** [db.session.add(order); db.session.flush()]: the INSERT assigns the
    primary key; the unique index on [order_number] rejects a duplicate.
    After a failed flush the session holds nothing new and awaits its
    rollback. *)
Definition add_order_flush (env : Env) (mk : Z -> Order) (s : Session)
  : result Order * Session :=
  let o := mk (next_order_id s) in
  let s1 := {| products := products s; settings := settings s;
               committed := committed s; pending := pending s;
               flushes := S (flushes s) |} in
  if existsb (fun o' => order_number_eqb (order_number o') (order_number o))
             (orders (visible s))
  then (Raise IntegrityError, s1)
  else match flush_error env with
       | Some e => (Raise e, s1)
       | None =>
           (Ok o, with_pending s1
                    {| orders := orders (pending s) ++ [o];
                       order_items := order_items (pending s);
                       transactions := transactions (pending s) |})
       end.

(** [db.session.add(order_item)] *)
Definition add_item (it : OrderItem) (s : Session) : Session :=
  with_pending s
    {| orders := orders (pending s);
       order_items := order_items (pending s) ++ [it];
       transactions := transactions (pending s) |}.

(** [db.session.add(transaction)] *)
Definition add_transaction (t : Transaction) (s : Session) : Session :=
  with_pending s
    {| orders := orders (pending s);
       order_items := order_items (pending s);
       transactions := transactions (pending s) ++ [t] |}.

(** Attribute assignment on an order object the session already holds:
    the session and the handler share the object. *)
Definition update_pending_order (id : Z) (f : Order -> Order) (s : Session) : Session :=
  with_pending s
    {| orders := map (fun o => if (order_id o =? id)%Z then f o else o)
                     (orders (pending s));
       order_items := order_items (pending s);
       transactions := transactions (pending s) |}.

(** [db.session.rollback()] *)
Definition rollback (s : Session) : Session := with_pending s no_rows.

(** [db.session.commit()] *)
Definition commit (env : Env) (s : Session) : result Session :=
  match commit_error env with
  | Some e => Raise e
  | None =>
      Ok {| products := products s; settings := settings s;
            committed := visible s; pending := no_rows;
            flushes := flushes s |}
  end.

(** An attribute assignment on a loaded order followed by
    [db.session.commit()]: the UPDATE of the row with that primary key. *)
Definition update_order_commit (env : Env) (id : Z) (f : Order -> Order) (s : Session)
  : result Session :=
  match commit_error env with
  | Some e => Raise e
  | None =>
      Ok {| products := products s; settings := settings s;
            committed :=
              {| orders := map (fun o => if (order_id o =? id)%Z then f o else o)
                               (orders (visible s));
                 order_items := order_items (visible s);
                 transactions := transactions (visible s) |};
            pending := no_rows;
            flushes := flushes s |}
  end.

End Db.

(** ** [app/utils.py] *)

Module Utils.

(** [generate_order_number]: the number of orders created on the current
    calendar day, plus one, under the current day. *)
Definition generate_order_number (now : datetime) (s : Session) : OrderNumber :=
  let today_count :=
    Z.of_nat (List.length (filter (fun o => (date_of (created_at o) =? date_of now)%Z)
                             (orders (Db.visible s)))) + 1 in
  {| on_day := date_of now; on_seq := today_count |}.

Definition sum_amounts (l : list Transaction) : Q :=
  fold_right (fun t acc => (amount t + acc)%Q) 0%Q l.

(** [export_to_excel]: the lower bound of the exported range. *)
Definition export_start_date (period : string) (now : datetime) : datetime :=
  if String.eqb period "daily" then midnight now
  else if String.eqb period "weekly" then now - timedelta_days 7
  else if String.eqb period "monthly" then now - timedelta_days 30
  else now - timedelta_days 1.

(** The filter of both queries of [export_to_excel]. *)
Definition exported (period : string) (now : datetime) (row_created_at : datetime) : bool :=
  export_start_date period now <=? row_created_at.



(** The backup log table and the names present in the [backups/] directory. *)
Record Backups := {
  backup_logs : list BackupLog;
  backup_files : list string
}.

(** One turn of the loop of [cleanup_old_backups]: [os.remove] when the
    file exists, then the DELETE of the log row. *)
Definition delete_backup (st : Backups) (backup : BackupLog) : Backups :=
  {| backup_logs :=
       filter (fun b => negb (backup_id b =? backup_id backup)) (backup_logs st);
     backup_files :=
       if existsb (String.eqb (filename backup)) (backup_files st)
       then filter (fun f => negb (String.eqb (filename backup) f)) (backup_files st)
       else backup_files st |}.

(** [cleanup_old_backups(retention_days)], with the file system and the
    commit answering normally. *)
Definition cleanup_old_backups (retention_days : Z) (now : datetime) (st : Backups)
  : Backups :=
  let cutoff_date := now - timedelta_days retention_days in
  let old_backups :=
    filter (fun b => backup_created_at b <? cutoff_date) (backup_logs st) in
  fold_left delete_backup old_backups st.

(** The query of [tasks.health_check]: the latest row with status
    'success' ([order_by(created_at.desc()).first()]). *)
Definition most_recent_success (st : Backups) : option BackupLog :=
  fold_left (fun best b =>
               if String.eqb (backup_status b) "success"
               then match best with
                    | Some b0 => if backup_created_at b0 <? backup_created_at b
                                 then Some b else best
                    | None => Some b
                    end
               else best)
            (backup_logs st) None.

End Utils.

(** ** Order creation, [app/api_routes.py] *)

Module Api.

(** One element of [data['items']] as the handler reads it.  The handler
    has a default for a missing unit price, [item_data.get('unit_price',
    product.price)]; [OrderItemSchema] declares the field required, so a
    request that passes [order_schema.load] always carries one. *)
Record ItemData := {
  d_product_id : Z;
  d_quantity : Z;
  d_unit_price : option Q
}.

(** [data] after [OrderSchema] has loaded it. *)
Record OrderData := {
  d_customer_id : option Z;
  d_payment_method : string;
  d_discount_amount : option Q;  (* [data.get('discount_amount', 0)] *)
  d_notes : option string;
  d_items : list ItemData
}.

Inductive response :=
| Created (o : option Order)               (* 201, the order read back *)
| BadRequest (msg : string)                (* 400 *)
| ProductNotFound (id : Z)                 (* 400, 'Product <id> not found' *)
| NotFound                                 (* 404 *)
| StatusUpdated (o : Order)                (* 200 *)
| InternalError (msg : string).            (* 500 *)

(** The loop over [data['items']]: stops at the first product id that is
    not in the catalog, with the session as it is at that point. *)
Fixpoint add_items (oid : Z) (items : list ItemData) (total : Q) (s : Session)
  : (Z + Q) * Session :=
  match items with
  | [] => (inr total, s)
  | item_data :: rest =>
      match Db.get_product (d_product_id item_data) s with
      | None => (inl (d_product_id item_data), s)
      | Some product =>
          let unit_price := match d_unit_price item_data with
                            | Some p => p
                            | None => price product
                            end in
          let total_price := (unit_price * inject_Z (d_quantity item_data))%Q in
          let order_item := {| item_order_id := oid;
                               item_product_id := product_id product;
                               quantity := d_quantity item_data;
                               unit_price := unit_price;
                               total_price := total_price |} in
          add_items oid rest (total + total_price)%Q (Db.add_item order_item s)
      end
  end.

Definition create_order (env : Env) (now : datetime) (current_user_id : Z)
    (data : OrderData) (s : Session) : response * Session :=
  match d_items data with
  | [] => (BadRequest "Order must contain at least one item", s)
  | _ =>
      let discount := match d_discount_amount data with Some d => d | None => 0%Q end in
      let mk id :=
        {| order_id := id;
           order_number := Utils.generate_order_number now s;
           order_user_id := current_user_id;
           customer_id := d_customer_id data;
           total_amount := None;
           tax_amount := 0%Q;
           discount_amount := discount;
           payment_method := d_payment_method data;
           status := "pending";
           notes := match d_notes data with Some n => n | None => ""%string end;
           created_at := now;
           updated_at := now;
           completed_at := None |} in
      match Db.add_order_flush env mk s with
      | (Raise _, s1) => (InternalError "Failed to create order", Db.rollback s1)
      | (Ok order, s1) =>
          match add_items (order_id order) (d_items data) 0%Q s1 with
          | (inl missing, s2) => (ProductNotFound missing, s2)
          | (inr total, s2) =>
              (* Apply discount *)
              let total := (total - discount_amount order)%Q in
              (* TODO: Get tax rate from settings *)
              let tax := 0%Q in
              let set o :=
                {| order_id := order_id o;
                   order_number := order_number o;
                   order_user_id := order_user_id o;
                   customer_id := customer_id o;
                   total_amount := Some (total + tax)%Q;
                   tax_amount := tax;
                   discount_amount := discount_amount o;
                   payment_method := payment_method o;
                   status := status o;
                   notes := notes o;
                   created_at := created_at o;
                   updated_at := updated_at o;
                   completed_at := completed_at o |} in
              let s3 := Db.update_pending_order (order_id order) set s2 in
              let transaction :=
                {| type := "income";
                   category := "sales";
                   amount := (total + tax)%Q;
                   reference_type := Some "order"%string;
                   reference_id := Some (order_id order);
                   txn_payment_method := payment_method order;
                   txn_created_at := now;
                   created_by := current_user_id |} in
              let s4 := Db.add_transaction transaction s3 in
              match Db.commit env s4 with
              | Raise _ => (InternalError "Failed to create order", Db.rollback s4)
              | Ok s5 => (Created (Db.get_order (order_id order) s5), s5)
              end
          end
      end
  end.

Definition allowed_statuses : list string :=
  ["pending"; "in_progress"; "ready"; "completed"; "cancelled"]%string.

Definition is_allowed (st : string) : bool :=
  existsb (String.eqb st) allowed_statuses.

(** The three assignments of [update_order_status] on the loaded order. *)
Definition set_status (new_status : string) (now : datetime) (o : Order) : Order :=
  {| order_id := order_id o;
     order_number := order_number o;
     order_user_id := order_user_id o;
     customer_id := customer_id o;
     total_amount := total_amount o;
     tax_amount := tax_amount o;
     discount_amount := discount_amount o;
     payment_method := payment_method o;
     status := new_status;
     notes := notes o;
     created_at := created_at o;
     updated_at := now;
     completed_at := if String.eqb new_status "completed"
                     then Some now else completed_at o |}.

(** [PUT /orders/<id>/status]; [body] is [data['status']] when the JSON
    body has that key.  The handler has no [try]: a failing commit leaves
    it as an exception, answered by the 500 handler. *)
Definition update_order_status (env : Env) (now : datetime) (id : Z)
    (body : option string) (s : Session) : response * Session :=
  match Db.get_order id s with
  | None => (NotFound, s)
  | Some order =>
      match body with
      | None => (BadRequest "Status is required", s)
      | Some new_status =>
          if negb (is_allowed new_status)
          then (BadRequest "Invalid status", s)
          else match Db.update_order_commit env id (set_status new_status now) s with
               | Raise _ => (InternalError "Internal server error", s)
               | Ok s1 => (StatusUpdated (set_status new_status now order), s1)
               end
      end
  end.






End Api.

(** ** Order creation and status update, [app/pos_routes.py] *)

Module Pos.

(** A text field of the submitted form, by what [int()] or [float()] makes
    of it: the empty string, a number, or anything else. *)
Inductive text (A : Type) :=
| Blank
| Parsed (a : A)
| Junk.

Arguments Blank {A}.
Arguments Parsed {A} a.
Arguments Junk {A}.

Record OrderForm := {
  csrf_ok : bool;                          (* [validate_csrf] does not raise *)
  f_customer_id : option Z;                (* [form.get(..., type=int)] *)
  f_payment_method : string;
  f_discount_amount : option (text Q);     (* [None]: the key is absent *)
  f_notes : string;
  f_product_ids : list (text Z);           (* [getlist('product_id[]')] *)
  f_quantities : list (text Z)             (* [getlist('quantity[]')] *)
}.

Inductive response :=
| OrderPlaced (n : OrderNumber)   (* flash 'Order #... created successfully!' *)
| CartEmpty                       (* flash 'Please add items to the order.' *)
| CreateFailed                    (* flash 'Error creating order.' *)
| NotFound                        (* 404 *)
| StatusChanged (st : string)     (* flash 'Order status updated to ...!' *)
| StatusInvalid                   (* flash 'Invalid status.' *)
| StatusFailed.                   (* flash 'Error updating order status.' *)

(** One entry of the handler's [order_items] list. *)
Record CartLine := {
  c_product : Product;
  c_quantity : Z;
  c_unit_price : Q;
  c_total_price : Q
}.

(** [float(...)] and [int(...)] on a form field. *)
Definition number {A : Type} (t : text A) : result A :=
  match t with
  | Parsed a => Ok a
  | Blank | Junk => Raise ValueError
  end.

(** The loop [for i, product_id in enumerate(product_ids)]. *)
Fixpoint cart (ids : list (text Z)) (i : nat) (quantities : list (text Z))
    (total : Q) (lines : list CartLine) (s : Session)
  : result (Q * list CartLine) :=
  match ids with
  | [] => Ok (total, lines)
  | Blank :: rest => cart rest (S i) quantities total lines s
  | product_id :: rest =>
      match number product_id with
      | Raise e => Raise e
      | Ok pid =>
          let product := Db.get_product pid s in
          match nth_error quantities i with
          | None => Raise IndexError
          | Some q =>
              match number q with
              | Raise e => Raise e
              | Ok quantity =>
                  match product with
                  | None => Raise AttributeError
                  | Some product =>
                      let unit_price := price product in
                      let total_price := (unit_price * inject_Z quantity)%Q in
                      cart rest (S i) quantities (total + total_price)%Q
                           (lines ++ [{| c_product := product;
                                         c_quantity := quantity;
                                         c_unit_price := unit_price;
                                         c_total_price := total_price |}]) s
                  end
              end
          end
      end
  end.

(** [OrderItem(order_id=order.id, ...)] from an entry of [order_items]. *)
Definition order_item_of (oid : Z) (item_data : CartLine) : OrderItem :=
  {| item_order_id := oid;
     item_product_id := product_id (c_product item_data);
     quantity := c_quantity item_data;
     unit_price := c_unit_price item_data;
     total_price := c_total_price item_data |}.

(** The loop [for item_data in order_items]. *)
Definition add_lines (oid : Z) (lines : list CartLine) (s : Session) : Session :=
  fold_left (fun s item_data => Db.add_item (order_item_of oid item_data) s)
            lines s.

(** How Python holds a number: the literal [0] is an [int], [float(...)] of
    a form field a [float], a [Numeric] column read from the database
    ([product.price], [settings.tax_rate]) a [Decimal]. *)
Inductive repr := PyInt | PyFloat | PyDecimal.

(** The representation of [a op b] for [op] among [+], [-], [*], [/]:
    [Decimal] and [float] do not mix. *)
Definition arith (a b : repr) : result repr :=
  match a, b with
  | PyDecimal, PyFloat | PyFloat, PyDecimal => Raise TypeError
  | PyFloat, _ | _, PyFloat => Ok PyFloat
  | PyDecimal, _ | _, PyDecimal => Ok PyDecimal
  | PyInt, PyInt => Ok PyInt
  end.

(** [POST /orders/new] *)
Definition new_order (env : Env) (now : datetime) (current_user_id : Z)
    (form : OrderForm) (s : Session) : response * Session :=
  if negb (csrf_ok form) then (CreateFailed, Db.rollback s) else
  match (match f_discount_amount form with
         | None => Ok 0%Q
         | Some t => number t
         end) with
  | Raise _ => (CreateFailed, Db.rollback s)
  | Ok discount =>
      match f_product_ids form with
      | [] => (CartEmpty, s)
      | product_ids =>
          match cart product_ids 0%nat (f_quantities form) 0%Q [] s with
          | Raise _ => (CreateFailed, Db.rollback s)
          | Ok (total, lines) =>
              (* [total_amount] is the int 0 until the loop adds the first
                 [unit_price * quantity], a Decimal, to it *)
              let total_repr := match lines with
                                | [] => PyInt
                                | _ :: _ => PyDecimal
                                end in
              (* Apply discount: [total_amount -= discount_amount], a float *)
              match arith total_repr PyFloat with
              | Raise _ => (CreateFailed, Db.rollback s)
              | Ok total_repr =>
              let total := (total - discount)%Q in
              (* Calculate tax: [settings.tax_rate if settings else 0] *)
              let rate := match Db.first_settings s with
                          | Some settings => tax_rate settings
                          | None => 0%Q
                          end in
              let rate_repr := match Db.first_settings s with
                               | Some _ => PyDecimal
                               | None => PyInt
                               end in
              (* [(total_amount * tax_rate) / 100] *)
              match arith total_repr rate_repr with
              | Raise _ => (CreateFailed, Db.rollback s)
              | Ok _ =>
              let tax := ((total * rate) / 100)%Q in
              let mk id :=
                {| order_id := id;
                   order_number := Utils.generate_order_number now s;
                   order_user_id := current_user_id;
                   customer_id := match f_customer_id form with
                                  | Some 0 | None => None
                                  | Some c => Some c
                                  end;
                   total_amount := Some (total + tax)%Q;
                   tax_amount := tax;
                   discount_amount := discount;
                   payment_method := f_payment_method form;
                   status := "pending";
                   notes := f_notes form;
                   created_at := now;
                   updated_at := now;
                   completed_at := None |} in
              match Db.add_order_flush env mk s with
              | (Raise _, s1) => (CreateFailed, Db.rollback s1)
              | (Ok order, s1) =>
                  let s2 := add_lines (order_id order) lines s1 in
                  let transaction :=
                    {| type := "income";
                       category := "sales";
                       amount := (total + tax)%Q;
                       reference_type := Some "order"%string;
                       reference_id := Some (order_id order);
                       txn_payment_method := f_payment_method form;
                       txn_created_at := now;
                       created_by := current_user_id |} in
                  let s3 := Db.add_transaction transaction s2 in
                  match Db.commit env s3 with
                  | Raise _ => (CreateFailed, Db.rollback s3)
                  | Ok s4 => (OrderPlaced (order_number order), s4)
                  end
              end
              end
              end
          end
      end
  end.

(** [POST /orders/<id>/status] *)
Definition update_order_status (env : Env) (now : datetime) (id : Z)
    (csrf : bool) (form_status : option string) (s : Session)
  : response * Session :=
  match Db.get_order id s with
  | None => (NotFound, s)
  | Some order =>
      if negb csrf then (StatusFailed, Db.rollback s) else
      match form_status with
      | Some new_status =>
          if Api.is_allowed new_status
          then match Db.update_order_commit env id (Api.set_status new_status now) s with
               | Raise _ => (StatusFailed, Db.rollback s)
               | Ok s1 => (StatusChanged new_status, s1)
               end
          else (StatusInvalid, s)
      | None => (StatusInvalid, s)
      end
  end.

End Pos.

(** ** Token check and permission decorator, [app/auth.py] *)

Module Auth.

(** [app/config.py] *)
Record Config := {
  JWT_SECRET_KEY : string;
  JWT_ACCESS_TOKEN_EXPIRES : Z;
  JWT_REFRESH_TOKEN_EXPIRES : Z
}.

Definition default_config (secret : string) : Config :=
  {| JWT_SECRET_KEY := secret;
     JWT_ACCESS_TOKEN_EXPIRES := timedelta_hours 24;
     JWT_REFRESH_TOKEN_EXPIRES := timedelta_days 30 |}.

(** The claims of a token: a JSON object, any key of which may be absent. *)
Record Payload := {
  claim_user_id : option Z;
  claim_username : option string;
  claim_role : option string;
  claim_exp : option Z;
  claim_iat : option Z;
  claim_type : option string
}.

(** A presented token, symbolically: a string that is no HS256 token at
    all, or claims signed under some key.  The signature of a token is
    valid under a secret exactly when it was signed under that secret. *)
Inductive Token :=
| Malformed
| Signed (key : string) (claims : Payload).

Definition signature_valid (cfg : Config) (t : Token) : bool :=
  match t with
  | Malformed => false
  | Signed key _ => String.eqb key (JWT_SECRET_KEY cfg)
  end.

Definition expired (now : datetime) (t : Token) : bool :=
  match t with
  | Signed _ claims => match claim_exp claims with
                       | Some exp => exp <=? now
                       | None => false
                       end
  | Malformed => false
  end.

(** [jwt.decode(token, key, algorithms=['HS256'])] of the PyJWT library:
    the signature is verified first, then the expiry when the token has one.
    Checks the library may apply to other registered claims (a token
    presented before its [iat] or [nbf]) are not modelled. *)
Definition jwt_decode (t : Token) (key : string) (now : datetime) : result Payload :=
  match t with
  | Malformed => Raise InvalidTokenError
  | Signed k claims =>
      if negb (String.eqb k key) then Raise InvalidTokenError
      else match claim_exp claims with
           | Some exp => if exp <=? now then Raise ExpiredSignatureError else Ok claims
           | None => Ok claims
           end
  end.

Definition generate_jwt_token (cfg : Config) (now : datetime) (user : User) : Token :=
  Signed (JWT_SECRET_KEY cfg)
    {| claim_user_id := Some (user_id user);
       claim_username := Some (username user);
       claim_role := Some (role user);
       claim_exp := Some (now + JWT_ACCESS_TOKEN_EXPIRES cfg);
       claim_iat := Some now;
       claim_type := Some "access"%string |}.

Definition generate_refresh_token (cfg : Config) (now : datetime) (user : User) : Token :=
  Signed (JWT_SECRET_KEY cfg)
    {| claim_user_id := Some (user_id user);
       claim_username := None;
       claim_role := None;
       claim_exp := Some (now + JWT_REFRESH_TOKEN_EXPIRES cfg);
       claim_iat := Some now;
       claim_type := Some "refresh"%string |}.

(** [User.query.get(id)] *)
Definition get_user (id : Z) (users : list User) : option User :=
  find (fun u => user_id u =? id) users.

(** [payload[key]] *)
Definition item {A : Type} (claim : option A) : result A :=
  match claim with
  | Some a => Ok a
  | None => Raise KeyError
  end.

(** [verify_jwt_token]: the two [except] clauses catch the two exceptions
    of the library; any other exception leaves the function. *)
Definition verify_jwt_token (cfg : Config) (users : list User) (now : datetime)
    (token : Token) : result (option User) :=
  match jwt_decode token (JWT_SECRET_KEY cfg) now with
  | Raise ExpiredSignatureError => Ok None
  | Raise InvalidTokenError => Ok None
  | Raise e => Raise e
  | Ok payload =>
      match item (claim_type payload) with
      | Raise e => Raise e
      | Ok ty =>
          if negb (String.eqb ty "access") then Ok None
          else match item (claim_user_id payload) with
               | Raise e => Raise e
               | Ok uid =>
                   match get_user uid users with
                   | Some user => if is_active user then Ok (Some user) else Ok None
                   | None => Ok None
                   end
               end
      end
  end.

(** [flask_login.current_user] *)
Inductive CurrentUser :=
| AnonymousUser
| LoggedIn (u : User).

(** [is_authenticated] of Flask-Login: false for the anonymous user; the
    user mixin answers with [is_active]. *)
Definition is_authenticated (cu : CurrentUser) : bool :=
  match cu with
  | AnonymousUser => false
  | LoggedIn u => is_active u
  end.

Inductive guarded (A : Type) :=
| Unauthorized          (* 401 'Authentication required' *)
| Forbidden             (* 403 'Insufficient permissions' *)
| Ran (a : A).          (* the wrapped view ran *)

Arguments Unauthorized {A}.
Arguments Forbidden {A}.
Arguments Ran {A} a.

(** The decorator [has_permission(permission)] around a view [f]. *)
Definition has_permission {A : Type} (permission : string) (f : User -> A)
    (current_user : CurrentUser) : guarded A :=
  match current_user with
  | AnonymousUser => Unauthorized
  | LoggedIn u =>
      if negb (is_authenticated current_user) then Unauthorized
      else if negb (User_has_permission u permission) then Forbidden
      else Ran (f u)
  end.

End Auth.

(** ** Notions of the specification, used to state its claims *)

Module Spec.

(** The forward order of statuses: pending, in_progress, ready, completed. *)
Definition status_rank (st : string) : option Z :=
  if String.eqb st "pending" then Some 0
  else if String.eqb st "in_progress" then Some 1
  else if String.eqb st "ready" then Some 2
  else if String.eqb st "completed" then Some 3
  else None.

(** A status change allowed by the specification: forward (or staying),
    or an explicit cancellation. *)
Definition forward_or_cancel (old new : string) : bool :=
  String.eqb new "cancelled"
  || match status_rank old, status_rank new with
     | Some a, Some b => a <=? b
     | _, _ => false
     end.



(** Sum of the line totals of a list of order items. *)
Definition subtotal (items : list OrderItem) : Q :=
  fold_right (fun it acc => (total_price it + acc)%Q) 0%Q items.

(** The items of an order, as the relationship [Order.items] loads them. *)
Definition items_of (o : Order) (t : Tables) : list OrderItem :=
  filter (fun it => item_order_id it =? order_id o) (order_items t).

(** The ledger entries that refer to an order. *)
Definition refers_to (o : Order) (t : Transaction) : bool :=
  match reference_type t, reference_id t with
  | Some rt, Some id => String.eqb rt "order" && (id =? order_id o)
  | _, _ => false
  end.

Definition ledger_of (o : Order) (t : Tables) : list Transaction :=
  filter (refers_to o) (transactions t).

(** Largest primary key of [orders] handed out so far. *)
Definition max_order_id (t : Tables) : Z :=
  fold_right Z.max 0 (map order_id (orders t)).

(** Referential integrity, as far as order creation depends on it: order
    items and order-referencing ledger entries point at ids that have been
    handed out. *)
Definition references_known (t : Tables) : bool :=
  forallb (fun it => item_order_id it <=? max_order_id t) (order_items t)
  && forallb (fun tx => match reference_type tx, reference_id tx with
                        | Some rt, Some id =>
                            negb (String.eqb rt "order") || (id <=? max_order_id t)
                        | _, _ => true
                        end) (transactions t).

(** A session at the start of a request: nothing pending. *)
Definition clean (s : Session) : Prop := pending s = no_rows.

(** The order number about to be generated is already in use. *)
Definition number_taken (now : datetime) (s : Session) : bool :=
  existsb (fun o => order_number_eqb (order_number o)
                      (Utils.generate_order_number now s))
          (orders (Db.visible s)).

(** The price of a product in the catalog. *)
Definition catalog_price (catalog : list Product) (id : Z) : option Q :=
  option_map price (find (fun p => product_id p =? id) catalog).

(** The unit price of a created line against the request: the override
    when the request carries one, the catalog price otherwise. *)
Definition unit_price_rule (catalog : list Product) (override : option Q)
    (it : OrderItem) : Prop :=
  match override with
  | Some p => unit_price it = p
  | None => catalog_price catalog (item_product_id it) = Some (unit_price it)
  end.

Definition api_line (catalog : list Product) (d : Api.ItemData) (it : OrderItem) : Prop :=
  item_product_id it = Api.d_product_id d
  /\ quantity it = Api.d_quantity d
  /\ unit_price_rule catalog (Api.d_unit_price d) it.

Definition line_total_ok (it : OrderItem) : Prop :=
  (total_price it == unit_price it * inject_Z (quantity it))%Q.

(** The ledger entry that goes with an order. *)
Definition sale_of (o : Order) (tx : Transaction) : Prop :=
  type tx = "income"%string
  /\ category tx = "sales"%string
  /\ total_amount o = Some (amount tx)
  /\ reference_type tx = Some "order"%string
  /\ reference_id tx = Some (order_id o).

End Spec.

(** ** Concrete inputs used by the examples below *)

Module Sample.

Definition cashier : User :=
  {| user_id := 2; username := "sara"; role := "cashier"; is_active := true |}.

(** 2024-01-10 12:00:00 UTC, a Wednesday. *)
Definition wednesday_noon : datetime := 1704888000.

Definition completed_order : Order :=
  {| order_id := 1;
     order_number := {| on_day := 19731; on_seq := 1 |};
     order_user_id := 2;
     customer_id := None;
     total_amount := Some 30%Q;
     tax_amount := 0%Q;
     discount_amount := 0%Q;
     payment_method := "cash";
     status := "completed";
     notes := "";
     created_at := 1704790800;
     updated_at := 1704800000;
     completed_at := Some 1704800000 |}.

Definition shop_with_completed_order : Session :=
  {| products := []; settings := [];
     committed := {| orders := [completed_order]; order_items := [];
                     transactions := [] |};
     pending := no_rows; flushes := 0 |}.



(** The only backup, taken on 2023-12-01 02:00:00 UTC, with its file. *)
Definition december_backup : BackupLog :=
  {| backup_id := 1;
     filename := "laundry_pos_backup_20231201_020000.db";
     backup_status := "success";
     backup_created_at := 1701396000 |}.

Definition one_old_backup : Utils.Backups :=
  {| Utils.backup_logs := [december_backup];
     Utils.backup_files := ["laundry_pos_backup_20231201_020000.db"%string] |}.

Definition config : Auth.Config := Auth.default_config "s3cret".

Definition users : list User := [cashier].

(** Claims signed under the configured secret, valid for another hour,
    that carry a user id and no 'type'. *)
Definition untyped_token : Auth.Token :=
  Auth.Signed "s3cret"
    {| Auth.claim_user_id := Some 2;
       Auth.claim_username := Some "sara"%string;
       Auth.claim_role := Some "cashier"%string;
       Auth.claim_exp := Some (wednesday_noon + 3600);
       Auth.claim_iat := Some wednesday_noon;
       Auth.claim_type := None |}.

(** A shop with one product, a shirt at 15.00, and a tax rate of 14%. *)
Definition shirt : Product := {| product_id := 1; price := 15%Q |}.

Definition shop : Session :=
  {| products := [shirt]; settings := [{| tax_rate := 14%Q |}];
     committed := no_rows; pending := no_rows; flushes := 0 |}.

(** Two shirts at 15.00, no discount, through the API and through the POS
    form. *)
Definition two_shirts : Api.OrderData :=
  {| Api.d_customer_id := None;
     Api.d_payment_method := "cash";
     Api.d_discount_amount := None;
     Api.d_notes := None;
     Api.d_items := [{| Api.d_product_id := 1; Api.d_quantity := 2;
                        Api.d_unit_price := Some 15%Q |}] |}.

Definition two_shirts_form : Pos.OrderForm :=
  {| Pos.csrf_ok := true;
     Pos.f_customer_id := None;
     Pos.f_payment_method := "cash";
     Pos.f_discount_amount := Some (Pos.Parsed 0%Q);
     Pos.f_notes := "";
     Pos.f_product_ids := [Pos.Parsed 1];
     Pos.f_quantities := [Pos.Parsed 2] |}.

Definition api_outcome : Api.response * Session :=
  Api.create_order storage_ok wednesday_noon 2 two_shirts shop.


(** A shop that has no [Settings] row, and a form whose only product field
    was left empty, with a discount of 5.00. *)
Definition shop_without_settings : Session :=
  {| products := [shirt]; settings := [];
     committed := no_rows; pending := no_rows; flushes := 0 |}.





(** A shop whose only order of the day holds the sequence value 2. *)
Definition second_of_the_day : Order :=
  {| order_id := 1;
     order_number := {| on_day := 19732; on_seq := 2 |};
     order_user_id := 2;
     customer_id := None;
     total_amount := Some 30%Q;
     tax_amount := 0%Q;
     discount_amount := 0%Q;
     payment_method := "cash";
     status := "pending";
     notes := "";
     created_at := 1704880800;
     updated_at := 1704880800;
     completed_at := None |}.

Definition shop_with_taken_number : Session :=
  {| products := [shirt]; settings := [{| tax_rate := 14%Q |}];
     committed := {| orders := [second_of_the_day]; order_items := [];
                     transactions := [] |};
     pending := no_rows; flushes := 0 |}.

End Sample.

(** ** Daily figures: [daily_report], [get_dashboard_stats], [generate_daily_report] *)

Module Reports.

(** What Python's [if date_param:] and [strptime] make of the query
    parameter [date]: absent or empty, a date, or anything else. *)
Definition DateParam := option (Pos.text date).

Record DailyReport := {
  report_date : date;
  income : Q;
  expense : Q;
  net_income : Q;
  total_orders : nat;
  completed_orders : nat;
  pending_orders : nat
}.

Inductive response :=
| DailyOk (r : DailyReport)     (* 200 *)
| InvalidDate.                  (* 400, 'Invalid date format. Use YYYY-MM-DD' *)

(** [func.sum(Transaction.amount)] over the entries of one type and one
    calendar day, [or 0]. *)
Definition day_amount (kind : string) (d : date) (s : Session) : Q :=
  Utils.sum_amounts
    (filter (fun t => String.eqb (type t) kind && (date_of (txn_created_at t) =? d))
            (transactions (Db.visible s))).

(** [Order.query.filter(func.date(Order.created_at) == d)], with one more
    condition on the status when [st] is given. *)
Definition day_orders (st : option string) (d : date) (s : Session) : nat :=
  List.length
    (filter (fun o => (date_of (created_at o) =? d)
                      && match st with
                         | Some v => String.eqb (status o) v
                         | None => true
                         end)
            (orders (Db.visible s))).

(** The body of [daily_report] once the date is known. *)
Definition day_figures (target_date : date) (s : Session) : DailyReport :=
  let day_income := day_amount "income" target_date s in
  let day_expense := day_amount "expense" target_date s in
  {| report_date := target_date;
     income := day_income;
     expense := day_expense;
     net_income := (day_income - day_expense)%Q;
     total_orders := day_orders None target_date s;
     completed_orders := day_orders (Some "completed"%string) target_date s;
     pending_orders := day_orders (Some "pending"%string) target_date s |}.

(** [GET /reports/daily] *)
Definition daily_report (date_param : DateParam) (now : datetime) (s : Session)
  : response :=
  match date_param with
  | None | Some Pos.Blank => DailyOk (day_figures (date_of now) s)
  | Some (Pos.Parsed target_date) => DailyOk (day_figures target_date s)
  | Some Pos.Junk => InvalidDate
  end.

(** One entry of the list [get_dashboard_stats] returns. *)
Record DayStat := {
  stat_date : date;
  stat_income : Q;
  stat_expense : Q;
  stat_net : Q
}.

(** [get_dashboard_stats(days)]: [range(days)] is empty for [days <= 0]. *)
Definition get_dashboard_stats (days : Z) (now : datetime) (s : Session)
  : list DayStat :=
  let end_date := now in
  let start_date := end_date - timedelta_days days in
  map (fun i =>
         let date := start_date + timedelta_days (Z.of_nat i) in
         let date_only := date_of date in
         let day_income := day_amount "income" date_only s in
         let day_expense := day_amount "expense" date_only s in
         {| stat_date := date_only;
            stat_income := day_income;
            stat_expense := day_expense;
            stat_net := (day_income - day_expense)%Q |})
      (seq 0 (Z.to_nat days)).

(** The report of [tasks.generate_daily_report]. *)
Record TaskReport := {
  task_date : date;
  task_income : Q;
  task_expense : Q;
  task_net_income : Q;
  task_total_orders : nat;
  task_completed_orders : nat;
  completion_rate : Q
}.

Definition generate_daily_report (now : datetime) (s : Session) : TaskReport :=
  let today := date_of now in
  let day_income := day_amount "income" today s in
  let day_expense := day_amount "expense" today s in
  let orders_count := day_orders None today s in
  let completed_orders := day_orders (Some "completed"%string) today s in
  {| task_date := today;
     task_income := day_income;
     task_expense := day_expense;
     task_net_income := (day_income - day_expense)%Q;
     task_total_orders := orders_count;
     task_completed_orders := completed_orders;
     completion_rate :=
       if (0 <? orders_count)%nat
       then (inject_Z (Z.of_nat completed_orders) / inject_Z (Z.of_nat orders_count)
             * 100)%Q
       else 0%Q |}.

(** Sum of a list of amounts. *)
Definition total (l : list Q) : Q := fold_right Qplus 0%Q l.

End Reports.

(** ** Backups: [create_backup], [daily_backup_task], [health_check] *)

Module Backup.

(** What the host answers: whether the driver name contains 'sqlite', and
    whether [shutil.copy2] and [os.path.getsize] succeed.  The directory
    'backups' can be made, the commits of the log rows succeed, and a copy
    that fails is taken to leave no file behind. *)
Record Host := {
  is_sqlite : bool;
  copy_ok : bool
}.

Inductive failure :=
| NotImplementedError     (* 'Backup for non-SQLite databases not implemented' *)
| CopyError.              (* the copy or the size query raised *)

(** Autoincrement primary key of [backup_logs]. *)
Definition next_backup_id (st : Utils.Backups) : Z :=
  1 + fold_right Z.max 0 (map backup_id (Utils.backup_logs st)).

(** [BackupLog(filename=..., status=...)], added and committed. *)
Definition log_backup (name : string) (outcome : string) (now : datetime)
    (st : Utils.Backups) : Utils.Backups :=
  {| Utils.backup_logs :=
       Utils.backup_logs st
       ++ [{| backup_id := next_backup_id st;
              filename := name;
              backup_status := outcome;
              backup_created_at := now |}];
     Utils.backup_files := Utils.backup_files st |}.

(** The base name of [f'backups/laundry_pos_backup_{timestamp}.db']. *)
Definition backup_name (timestamp : string) : string :=
  ("laundry_pos_backup_" ++ timestamp ++ ".db")%string.

(** [shutil.copy2(db_path, backup_filename)]: creates the file, or
    overwrites the one of that name. *)
Definition copy_to (name : string) (st : Utils.Backups) : Utils.Backups :=
  {| Utils.backup_logs := Utils.backup_logs st;
     Utils.backup_files :=
       if existsb (String.eqb name) (Utils.backup_files st)
       then Utils.backup_files st
       else Utils.backup_files st ++ [name] |}.

(** [create_backup]; [strftime] renders the clock as [%Y%m%d_%H%M%S].  The
    result is the path returned, or the exception raised again after the
    failed attempt has been logged. *)
Definition create_backup (strftime : datetime -> string) (host : Host)
    (now : datetime) (st : Utils.Backups) : (string + failure) * Utils.Backups :=
  let timestamp := strftime now in
  let failed e := (inr e, log_backup ("backup_" ++ timestamp) "failed" now st) in
  if is_sqlite host then
    if copy_ok host then
      let name := backup_name timestamp in
      let logged := log_backup name "success" now (copy_to name st) in
      (* Clean old backups (keep last 30 days) *)
      (inl ("backups/" ++ name)%string, Utils.cleanup_old_backups 30 now logged)
    else failed CopyError
  else failed NotImplementedError.

(** [tasks.daily_backup_task] *)
Definition daily_backup_task (strftime : datetime -> string) (host : Host)
    (now : datetime) (st : Utils.Backups) : bool * Utils.Backups :=
  match create_backup strftime host now st with
  | (inl _, st') => (true, st')
  | (inr _, st') => (false, st')
  end.

(** What [tasks.health_check] probes outside the backup log. *)
Record Probe := {
  db_ok : bool;                 (* [SELECT 1] answers *)
  disk_free : option Z          (* free bytes; [None] when the query raises *)
}.

Inductive issue :=
| DatabaseConnectivity
| NoSuccessfulBackups         (* 'No successful backups found' *)
| NoRecentBackups             (* 'No recent backups (older than 7 days)' *)
| LowDiskSpace.

(** The list [issues] of [tasks.health_check]; [healthy] is its emptiness.
    The query on the backup log is taken to answer. *)
Definition health_issues (probe : Probe) (now : datetime) (st : Utils.Backups)
  : list issue :=
  (if db_ok probe then [] else [DatabaseConnectivity])
  ++ match Utils.most_recent_success st with
     | None => [NoSuccessfulBackups]
     | Some recent_backup =>
         if backup_created_at recent_backup <? now - timedelta_days 7
         then [NoRecentBackups] else []
     end
  ++ match disk_free probe with
     | Some free => if free <? 1024 ^ 3 then [LowDiskSpace] else []
     | None => []
     end.

Definition healthy (probe : Probe) (now : datetime) (st : Utils.Backups) : bool :=
  match health_issues probe now st with
  | [] => true
  | _ => false
  end.

End Backup.

(** ** Bearer tokens over HTTP: [jwt_required], [authenticate_user],
    [get_token], [refresh_token] *)

Module Bearer.

(** The space character. *)
Definition space : Ascii.ascii :=
  Ascii.Ascii false false false false false true false false.

(** [s.split(sep)] for a separator of one character. *)
Fixpoint split (sep : Ascii.ascii) (s : string) : list string :=
  match s with
  | EmptyString => [EmptyString]
  | String c rest =>
      if Ascii.eqb c sep then EmptyString :: split sep rest
      else match split sep rest with
           | h :: t => String c h :: t
           | [] => [String c EmptyString]
           end
  end.

Inductive answer (A : Type) :=
| TokenMissing            (* 401 'Token is missing' *)
| TokenInvalid            (* 401 'Token is invalid or expired' *)
| Passed (a : A).         (* the view ran with [request.current_user] set *)

Arguments TokenMissing {A}.
Arguments TokenInvalid {A}.
Arguments Passed {A} a.

(** The decorator [jwt_required] around a view [f]; [read] is what the
    library reads from the text of a token. *)
Definition jwt_required {A : Type} (read : string -> Auth.Token)
    (cfg : Auth.Config) (users : list User) (now : datetime)
    (auth_header : option string) (f : User -> A) : result (answer A) :=
  let token :=
    match auth_header with
    | Some h => if String.prefix "Bearer " h
                then match nth_error (split space h) 1 with
                     | Some t => Ok (Some t)
                     | None => Raise IndexError
                     end
                else Ok None
    | None => Ok None
    end in
  match token with
  | Raise e => Raise e
  | Ok None | Ok (Some EmptyString) => Ok TokenMissing
  | Ok (Some t) =>
      match Auth.verify_jwt_token cfg users now (read t) with
      | Raise e => Raise e
      | Ok None => Ok TokenInvalid
      | Ok (Some user) => Ok (Passed (f user))
      end
  end.

(** [authenticate_user]; [password_ok user password] stands for
    [check_password_hash(user.password_hash, password)]. *)
Definition authenticate_user (password_ok : User -> string -> bool)
    (users : list User) (name password : string) : option User :=
  match find (fun u => String.eqb (username u) name && is_active u) users with
  | Some user => if password_ok user password then Some user else None
  | None => None
  end.

(** The JSON body of [POST /auth/token]. *)
Record Credentials := {
  c_username : option string;
  c_password : option string
}.

Inductive token_response :=
| CredentialsRequired                      (* 400 *)
| InvalidCredentials                       (* 401 *)
| Issued (access_token refresh_token : Auth.Token) (user : User) (expires_in : Z).

(** Python's truth value of [data.get(key)]. *)
Definition given (field : option string) : option string :=
  match field with
  | Some EmptyString | None => None
  | Some v => Some v
  end.

(** [get_token] (the rate limit of its route is not part of the handler). *)
Definition get_token (password_ok : User -> string -> bool) (cfg : Auth.Config)
    (users : list User) (now : datetime) (data : option Credentials)
  : token_response :=
  match data with
  | None => CredentialsRequired
  | Some d =>
      match given (c_username d), given (c_password d) with
      | Some name, Some password =>
          match authenticate_user password_ok users name password with
          | None => InvalidCredentials
          | Some user =>
              Issued (Auth.generate_jwt_token cfg now user)
                     (Auth.generate_refresh_token cfg now user)
                     user
                     (Auth.JWT_ACCESS_TOKEN_EXPIRES cfg)
          end
      | _, _ => CredentialsRequired
      end
  end.

Inductive refresh_response :=
| RefreshRequired          (* 400 'Refresh token required' *)
| RefreshNotImplemented.   (* 501 *)

(** [POST /auth/refresh]; the body's [refresh_token] field. *)
Definition refresh_token (data : option (option string)) : refresh_response :=
  match data with
  | Some field => match given field with
                  | Some _ => RefreshNotImplemented
                  | None => RefreshRequired
                  end
  | None => RefreshRequired
  end.

(** The part of the Flask session the language helpers use. *)
Record WebSession := {
  language : option string;
  permanent : bool
}.

Definition new_session : WebSession := {| language := None; permanent := false |}.

(** [get_user_language] *)
Definition get_user_language (session : WebSession) : string :=
  match language session with
  | Some l => l
  | None => "en"%string
  end.

Definition supported (lang : string) : bool :=
  existsb (String.eqb lang) ["en"; "ar"]%string.

(** [set_user_language] *)
Definition set_user_language (session : WebSession) (lang : string) : WebSession :=
  if supported lang
  then {| language := Some lang; permanent := true |}
  else session.

End Bearer.

(** ** Manual ledger entries: [new_transaction] *)

Module Books.

(** [TransactionForm] as submitted; [form_valid] is the answer of
    [validate_on_submit]. *)
Record TransactionForm := {
  form_valid : bool;
  t_type : string;
  t_category : string;
  t_amount : Q;
  t_payment_method : string
}.

Inductive response :=
| TransactionCreated      (* flash 'Transaction created successfully!' *)
| FormShown               (* the page with the form and the last entries *)
| Unhandled (e : exn).    (* the handler has no [try] *)

(** [POST /transactions/new] *)
Definition new_transaction (env : Env) (now : datetime) (current_user_id : Z)
    (form : TransactionForm) (s : Session) : response * Session :=
  if form_valid form then
    let transaction :=
      {| type := t_type form;
         category := t_category form;
         amount := t_amount form;
         reference_type := Some "manual"%string;
         reference_id := None;
         txn_payment_method := t_payment_method form;
         txn_created_at := now;
         created_by := current_user_id |} in
    let s1 := Db.add_transaction transaction s in
    match Db.commit env s1 with
    | Ok s2 => (TransactionCreated, s2)
    | Raise e => (Unhandled e, s1)
    end
  else (FormShown, s).

(** Every order has one ledger entry, which is its sale. *)
Definition one_sale_each (t : Tables) : Prop :=
  forall o, In o (orders t) ->
            exists tx, Spec.ledger_of o t = [tx] /\ Spec.sale_of o tx.

(** Orders created on day [d]. *)
Definition orders_of_day (d : date) (t : Tables) : list Order :=
  filter (fun o => date_of (created_at o) =? d) (orders t).

(** The order numbers are those a run of creations one after the other
    gives: each is under the day its order was created, with a sequence
    value between 1 and the number of orders of that day. *)
Definition numbered (t : Tables) : bool :=
  forallb (fun o => (on_day (order_number o) =? date_of (created_at o))
                    && (1 <=? on_seq (order_number o))
                    && (on_seq (order_number o)
                        <=? Z.of_nat (List.length
                                        (orders_of_day (date_of (created_at o)) t))))
          (orders t).

(** What a status update leaves alone in an order. *)
Definition unchanged_by_update (o o' : Order) : Prop :=
  order_id o' = order_id o
  /\ order_number o' = order_number o
  /\ order_user_id o' = order_user_id o
  /\ customer_id o' = customer_id o
  /\ total_amount o' = total_amount o
  /\ tax_amount o' = tax_amount o
  /\ discount_amount o' = discount_amount o
  /\ payment_method o' = payment_method o
  /\ notes o' = notes o
  /\ created_at o' = created_at o
  /\ (completed_at o <> None -> completed_at o' <> None).

End Books.

(** ** Categories: [delete_category] *)

Module Catalog.

Record Category := {
  category_id : Z;
  name_en : string;
  category_is_active : bool
}.

(** The columns of a product that tie it to its category. *)
Record ProductRow := {
  row_id : Z;
  row_category_id : Z;
  row_is_active : bool
}.

Record Shelf := {
  categories : list Category;
  shelf_products : list ProductRow
}.

(** The relationship [category.products]. *)
Definition products_of (id : Z) (sh : Shelf) : list ProductRow :=
  filter (fun p => row_category_id p =? id) (shelf_products sh).

Inductive response :=
| CategoryNotFound        (* 404 *)
| HasProducts             (* flash 'Cannot delete category with products. ...' *)
| CategoryDeleted         (* flash 'Category deleted successfully!' *)
| DeleteFailed.           (* flash 'Error deleting category.' *)

(** [POST /categories/<id>/delete] *)
Definition delete_category (env : Env) (csrf : bool) (id : Z) (sh : Shelf)
  : response * Shelf :=
  match find (fun c => category_id c =? id) (categories sh) with
  | None => (CategoryNotFound, sh)
  | Some category =>
      match products_of (category_id category) sh with
      | _ :: _ => (HasProducts, sh)
      | [] =>
          if negb csrf then (DeleteFailed, sh)
          else match commit_error env with
               | Some _ => (DeleteFailed, sh)
               | None =>
                   (CategoryDeleted,
                    {| categories :=
                         filter (fun c => negb (category_id c =? category_id category))
                                (categories sh);
                       shelf_products := shelf_products sh |})
               end
      end
  end.

(** Every product belongs to a category that exists. *)
Definition categories_exist (sh : Shelf) : Prop :=
  forall p, In p (shelf_products sh) ->
            exists c, In c (categories sh) /\ category_id c = row_category_id p.

End Catalog.

(** ** Uploads: [validate_file_upload] *)

Module Upload.

(** The full stop. *)
Definition dot : Ascii.ascii :=
  Ascii.Ascii false true true true false true false false.

(** The text after the last [sep] of [s]: [s.rsplit(sep, 1)[1]], and
    [None] when [sep] is not in [s]. *)
Fixpoint after_last (sep : Ascii.ascii) (s : string) : option string :=
  match s with
  | EmptyString => None
  | String c rest =>
      match after_last sep rest with
      | Some e => Some e
      | None => if Ascii.eqb c sep then Some rest else None
      end
  end.

(** An uploaded file: its name, and its size when [seek] and [tell] work. *)
Record File := {
  file_name : option string;
  file_size : option Z
}.

Inductive verdict :=
| FileIsValid                    (* True, 'File is valid' *)
| NoFileSelected                 (* False, 'No file selected' *)
| NoFileExtension                (* False, 'No file extension' *)
| InvalidFileType                (* False, 'Invalid file type. Allowed: ...' *)
| FileTooLarge (megabytes : Z).  (* False, 'File too large. Maximum size: ...MB' *)

Definition default_extensions : list string := ["jpg"; "jpeg"; "png"; "gif"]%string.

Definition default_max_size : Z := 5 * 1024 * 1024.

(** [validate_file_upload]; [lower] is [str.lower]. *)
Definition validate_file_upload (lower : string -> string) (file : option File)
    (allowed_extensions : option (list string)) (max_size : option Z) : verdict :=
  let allowed_extensions := match allowed_extensions with
                            | Some l => l
                            | None => default_extensions
                            end in
  let max_size := match max_size with
                  | Some m => m
                  | None => default_max_size
                  end in
  match file with
  | None => NoFileSelected
  | Some file =>
      match file_name file with
      | None | Some EmptyString => NoFileSelected
      | Some name =>
          match after_last dot name with
          | None => NoFileExtension
          | Some e =>
              let ext := lower e in
              if negb (existsb (String.eqb ext) allowed_extensions)
              then InvalidFileType
              else match file_size file with
                   | Some size =>
                       if max_size <? size
                       then FileTooLarge (max_size / (1024 * 1024))
                       else FileIsValid
                   | None => FileIsValid
                   end
          end
      end
  end.

End Upload.

(** ** More concrete inputs for the examples *)

Module Fixture.

(** The shop after the API order of two shirts. *)
Definition shop_after_order : Session := snd Sample.api_outcome.

(** A rendering of the clock, fixed at the time of the examples. *)
Definition stamp (dt : datetime) : string := "20240110_120000".

Definition sqlite_host : Backup.Host :=
  {| Backup.is_sqlite := true; Backup.copy_ok := true |}.

Definition backup_outcome : (string + Backup.failure) * Utils.Backups :=
  Backup.create_backup stamp sqlite_host Sample.wednesday_noon Sample.one_old_backup.

Definition good_probe : Backup.Probe :=
  {| Backup.db_ok := true; Backup.disk_free := Some (5 * 1024 ^ 3) |}.

Definition password_ok (u : User) (password : string) : bool :=
  String.eqb password "pw".

Definition sara_logs_in : option Bearer.Credentials :=
  Some {| Bearer.c_username := Some "sara"%string;
          Bearer.c_password := Some "pw"%string |}.

(** A shirt, then a product that is not in the catalog. *)
Definition shirt_and_unknown_form : Pos.OrderForm :=
  {| Pos.csrf_ok := true;
     Pos.f_customer_id := None;
     Pos.f_payment_method := "cash";
     Pos.f_discount_amount := Some (Pos.Parsed 0%Q);
     Pos.f_notes := "";
     Pos.f_product_ids := [Pos.Parsed 1; Pos.Parsed 99];
     Pos.f_quantities := [Pos.Parsed 2; Pos.Parsed 1] |}.

(** Two product fields left blank, and a discount of 5. *)
Definition blank_form : Pos.OrderForm :=
  {| Pos.csrf_ok := true;
     Pos.f_customer_id := None;
     Pos.f_payment_method := "cash";
     Pos.f_discount_amount := Some (Pos.Parsed 5%Q);
     Pos.f_notes := "";
     Pos.f_product_ids := [Pos.Blank; Pos.Blank];
     Pos.f_quantities := [Pos.Blank; Pos.Blank] |}.

(** Two categories; the only product, inactive, is in the first. *)
Definition shelf : Catalog.Shelf :=
  {| Catalog.categories :=
       [{| Catalog.category_id := 1; Catalog.name_en := "Washing";
           Catalog.category_is_active := true |};
        {| Catalog.category_id := 2; Catalog.name_en := "Ironing";
           Catalog.category_is_active := true |}];
     Catalog.shelf_products :=
       [{| Catalog.row_id := 1; Catalog.row_category_id := 1;
           Catalog.row_is_active := false |}] |}.

End Fixture.

(** ** Predicates and tactics used in the statements and proofs below *)

(** A word without a space, as a bearer token is. *)
Definition spaceless (t : string) : Prop :=
  forall c, In c (list_ascii_of_string t) -> c <> Bearer.space.

(** A file extension: a word without a dot. *)
Definition dotless (e : string) : Prop :=
  forall c, In c (list_ascii_of_string e) -> c <> Upload.dot.

(** Every sale refers to an order, and every order has exactly one sale. *)
Definition books_in_order (t : Tables) : Prop :=
  Spec.references_known t = true /\ Books.one_sale_each t.


(** * Properties *)

(** ** Permissions *)

Lemma User_has_permission_true (u : User) (permission : string) :
  User_has_permission u permission = true.
Proof.
  unfold User_has_permission. destruct (String.eqb (role u) "admin"); reflexivity.
Qed.

(** C10. [User.has_permission] answers [True] for every user and every
    permission string; hence for an authenticated current user the decorator
    never answers 403: it runs the wrapped view. *)
Theorem has_permission_never_forbids :
  (forall (u : User) (permission : string), User_has_permission u permission = true)
  /\ (forall (A : Type) (permission : string) (f : User -> A) (cu : Auth.CurrentUser),
        Auth.is_authenticated cu = true ->
        Auth.has_permission permission f cu <> Auth.Forbidden
        /\ exists u, cu = Auth.LoggedIn u /\ Auth.has_permission permission f cu = Auth.Ran (f u)).
Proof.
  split.
  - exact User_has_permission_true.
  - intros A permission f cu Hauth.
    destruct cu as [|u]; simpl in Hauth; [discriminate|].
    assert (E : Auth.has_permission permission f (Auth.LoggedIn u) = Auth.Ran (f u)).
    { unfold Auth.has_permission. simpl. rewrite Hauth, User_has_permission_true.
      reflexivity. }
    split.
    + rewrite E. discriminate.
    + exists u. split; [reflexivity | exact E].
Qed.

Lemma has_permission_never_forbids_witness :
  User_has_permission Sample.cashier "manage_users" = true
  /\ Auth.has_permission "manage_users" user_id (Auth.LoggedIn Sample.cashier) = Auth.Ran 2.
Proof.
  destruct has_permission_never_forbids as [Hperm Hdec].
  split.
  - apply Hperm.
  - destruct (Hdec Z "manage_users"%string user_id (Auth.LoggedIn Sample.cashier) eq_refl)
      as [_ [u [Hu Hrun]]].
    injection Hu as <-. exact Hrun.
Defined.

(** ** Status updates *)

Section StatusUpdate.

Variables (id : Z) (f : Order -> Order).
Hypothesis keeps_id : forall o, order_id (f o) = order_id o.

Lemma find_updated (l : list Order) :
  find (fun o => order_id o =? id)
       (map (fun o => if order_id o =? id then f o else o) l)
  = option_map f (find (fun o => order_id o =? id) l).
Proof using keeps_id.
  induction l as [|o l IH]; simpl; [reflexivity|].
  destruct (order_id o =? id) eqn:E.
  - rewrite keeps_id, E. reflexivity.
  - rewrite E. exact IH.
Qed.

Lemma get_order_after_update (env : Env) (s s1 : Session) :
  Db.update_order_commit env id f s = Ok s1 ->
  Db.get_order id s1 = option_map f (Db.get_order id s).
Proof using keeps_id.
  unfold Db.update_order_commit, Db.get_order.
  destruct (commit_error env); [discriminate|].
  intros [= <-]. unfold Db.visible at 1. simpl.
  rewrite app_nil_r. apply find_updated.
Qed.

End StatusUpdate.

Lemma update_commits (env : Env) (id : Z) (f : Order -> Order) (s : Session) :
  commit_error env = None -> exists s1, Db.update_order_commit env id f s = Ok s1.
Proof.
  intros H. unfold Db.update_order_commit. rewrite H. eexists. reflexivity.
Qed.

(** C6, as the handlers have it.  A status update checks the requested value
    against the five statuses and nothing else: any of the five is written
    over whatever the current status is, in either direction; any other
    value is refused and leaves the session as it was. *)
Theorem update_order_status_writes_request :
  forall (env : Env) (now : datetime) (id : Z) (st : string) (s : Session) (o : Order),
    Db.get_order id s = Some o ->
    commit_error env = None ->
    if Api.is_allowed st
    then status (Api.set_status st now o) = st
         /\ (exists s1,
               Api.update_order_status env now id (Some st) s
               = (Api.StatusUpdated (Api.set_status st now o), s1)
               /\ Db.get_order id s1 = Some (Api.set_status st now o))
         /\ (exists s1,
               Pos.update_order_status env now id true (Some st) s
               = (Pos.StatusChanged st, s1)
               /\ Db.get_order id s1 = Some (Api.set_status st now o))
    else Api.update_order_status env now id (Some st) s
         = (Api.BadRequest "Invalid status", s)
         /\ Pos.update_order_status env now id true (Some st) s
            = (Pos.StatusInvalid, s).
Proof.
  intros env now id st s o Hget Hcommit.
  unfold Api.update_order_status, Pos.update_order_status.
  rewrite Hget. simpl negb.
  destruct (Api.is_allowed st) eqn:Hallowed; simpl.
  - destruct (update_commits env id (Api.set_status st now) s Hcommit) as [s1 Hs1].
    rewrite Hs1.
    assert (Hread : Db.get_order id s1 = Some (Api.set_status st now o)).
    { rewrite (@get_order_after_update id (Api.set_status st now)
                 (fun _ => eq_refl) env s s1 Hs1), Hget.
      reflexivity. }
    repeat split; exists s1; split; (reflexivity || exact Hread).
  - split; reflexivity.
Qed.

Lemma update_order_status_writes_request_witness :
  exists s1,
    Api.update_order_status storage_ok Sample.wednesday_noon 1 (Some "pending"%string)
      Sample.shop_with_completed_order
    = (Api.StatusUpdated
         (Api.set_status "pending" Sample.wednesday_noon Sample.completed_order), s1)
    /\ Db.get_order 1 s1
       = Some (Api.set_status "pending" Sample.wednesday_noon Sample.completed_order).
Proof.
  exact (proj1 (proj2 (update_order_status_writes_request storage_ok
                         Sample.wednesday_noon 1 "pending"
                         Sample.shop_with_completed_order
                         (o := Sample.completed_order) eq_refl eq_refl))).
Defined.

(** C6, counterexample.  A completed order is put back to pending by the
    API handler and by the POS handler alike: the update is accepted and the
    stored status moves backwards. *)
Lemma update_order_status_moves_backwards :
  let s := Sample.shop_with_completed_order in
  let api := Api.update_order_status storage_ok Sample.wednesday_noon 1 (Some "pending"%string) s in
  let pos := Pos.update_order_status storage_ok Sample.wednesday_noon 1 true (Some "pending"%string) s in
  option_map status (Db.get_order 1 s) = Some "completed"%string
  /\ option_map status (Db.get_order 1 (snd api)) = Some "pending"%string
  /\ option_map status (Db.get_order 1 (snd pos)) = Some "pending"%string
  /\ fst pos = Pos.StatusChanged "pending"
  /\ Spec.forward_or_cancel "completed" "pending" = false.
Proof.
  vm_compute. repeat split; reflexivity.
Qed.

(** ** Reporting windows *)







(** ** Backup retention *)

Lemma filter_filter {A : Type} (p q : A -> bool) (l : list A) :
  filter p (filter q l) = filter (fun x => q x && p x) l.
Proof.
  induction l as [|a l IH]; simpl; [reflexivity|].
  destruct (q a); simpl; [destruct (p a)|]; rewrite IH; reflexivity.
Qed.

Lemma filter_all {A : Type} (p : A -> bool) (l : list A) :
  (forall a, In a l -> p a = true) -> filter p l = l.
Proof.
  induction l as [|a l IH]; simpl; intros H; [reflexivity|].
  rewrite (H a (or_introl eq_refl)), IH; [reflexivity|].
  intros b Hb. apply H. right. exact Hb.
Qed.

Lemma filter_none {A : Type} (p : A -> bool) (l : list A) :
  (forall a, In a l -> p a = false) -> filter p l = [].
Proof.
  induction l as [|a l IH]; simpl; intros H; [reflexivity|].
  rewrite (H a (or_introl eq_refl)). apply IH.
  intros b Hb. apply H. right. exact Hb.
Qed.

Lemma existsb_filter {A : Type} (p q : A -> bool) (l : list A) :
  existsb q (filter p l) = existsb (fun a => p a && q a) l.
Proof.
  induction l as [|a l IH]; simpl; [reflexivity|].
  destruct (p a); simpl; rewrite IH; reflexivity.
Qed.

Lemma delete_backup_files (st : Utils.Backups) (b : BackupLog) :
  Utils.backup_files (Utils.delete_backup st b)
  = filter (fun f => negb (String.eqb (filename b) f)) (Utils.backup_files st).
Proof.
  unfold Utils.delete_backup. simpl.
  destruct (existsb (String.eqb (filename b)) (Utils.backup_files st)) eqn:E;
    [reflexivity|].
  symmetry. apply filter_all. intros f Hf.
  destruct (String.eqb (filename b) f) eqn:Ef; [|reflexivity].
  assert (existsb (String.eqb (filename b)) (Utils.backup_files st) = true)
    by (apply existsb_exists; exists f; split; assumption).
  congruence.
Qed.

Lemma delete_all_logs (old : list BackupLog) (st : Utils.Backups) :
  Utils.backup_logs (fold_left Utils.delete_backup old st)
  = filter (fun b => negb (existsb (fun o => backup_id b =? backup_id o) old))
           (Utils.backup_logs st).
Proof.
  revert st. induction old as [|o old IH]; intros st; simpl.
  - symmetry. apply filter_all. reflexivity.
  - rewrite IH. unfold Utils.delete_backup at 1. simpl.
    rewrite filter_filter. apply filter_ext. intros b.
    rewrite negb_orb. reflexivity.
Qed.

Lemma delete_all_files (old : list BackupLog) (st : Utils.Backups) :
  Utils.backup_files (fold_left Utils.delete_backup old st)
  = filter (fun f => negb (existsb (fun o => String.eqb (filename o) f) old))
           (Utils.backup_files st).
Proof.
  revert st. induction old as [|o old IH]; intros st; simpl.
  - symmetry. apply filter_all. reflexivity.
  - rewrite IH, delete_backup_files, filter_filter.
    apply filter_ext. intros f. rewrite negb_orb. reflexivity.
Qed.

Lemma same_key_same_row {A : Type} (key : A -> Z) (l : list A) (a b : A) :
  NoDup (map key l) -> In a l -> In b l -> key a = key b -> a = b.
Proof.
  induction l as [|x l IH]; simpl; intros Hnd Ha Hb Hk; [contradiction|].
  inversion Hnd as [|? ? Hx Hl]; subst.
  destruct Ha as [<-|Ha], Hb as [<-|Hb].
  - reflexivity.
  - exfalso. apply Hx. rewrite Hk. apply in_map. exact Hb.
  - exfalso. apply Hx. rewrite <- Hk. apply in_map. exact Ha.
  - apply IH; assumption.
Qed.

Lemma most_recent_success_in (l : list BackupLog) (best : option BackupLog) (b : BackupLog) :
  fold_left (fun best b =>
               if String.eqb (backup_status b) "success"
               then match best with
                    | Some b0 => if backup_created_at b0 <? backup_created_at b
                                 then Some b else best
                    | None => Some b
                    end
               else best) l best = Some b ->
  In b l \/ best = Some b.
Proof.
  revert best. induction l as [|x l IH]; intros best H; simpl in H.
  - right. exact H.
  - apply IH in H. destruct H as [H|H]; [left; right; exact H|].
    destruct (String.eqb (backup_status x) "success"); [|right; exact H].
    destruct best as [b0|].
    + destruct (backup_created_at b0 <? backup_created_at x).
      * left. left. congruence.
      * right. exact H.
    + left. left. congruence.
Qed.

(** C5, as the code has it.  Cleanup selects by age alone: with retention
    [N] days it deletes every log row created before [now - N] days, and the
    file of that name, and keeps every other row; the most recent successful
    backup is kept exactly when it is not older than that. *)
Theorem cleanup_old_backups_by_age :
  forall (retention_days : Z) (now : datetime) (st : Utils.Backups),
    NoDup (map backup_id (Utils.backup_logs st)) ->
    let cutoff := now - timedelta_days retention_days in
    let after := Utils.cleanup_old_backups retention_days now st in
    Utils.backup_logs after
    = filter (fun b => cutoff <=? backup_created_at b) (Utils.backup_logs st)
    /\ Utils.backup_files after
       = filter (fun f => negb (existsb (fun b => (backup_created_at b <? cutoff)
                                                  && String.eqb (filename b) f)
                                        (Utils.backup_logs st)))
                (Utils.backup_files st)
    /\ forall b, Utils.most_recent_success st = Some b ->
                 (In b (Utils.backup_logs after) <-> cutoff <= backup_created_at b).
Proof.
  intros retention_days now st Hkeys cutoff after.
  assert (Hlogs : Utils.backup_logs after
            = filter (fun b => cutoff <=? backup_created_at b) (Utils.backup_logs st)).
  { unfold after, Utils.cleanup_old_backups. fold cutoff.
    rewrite delete_all_logs. apply filter_ext_in. intros b Hb.
    destruct (cutoff <=? backup_created_at b) eqn:E.
    - apply negb_true_iff.
      destruct (existsb _ _) eqn:Ex; [|reflexivity].
      apply existsb_exists in Ex. destruct Ex as [o [Ho Hid]].
      apply filter_In in Ho. destruct Ho as [Ho Hold].
      apply Z.eqb_eq in Hid.
      assert (b = o) by (eapply same_key_same_row; eauto).
      subst o. apply Z.ltb_lt in Hold. apply Z.leb_le in E. lia.
    - apply negb_false_iff. apply existsb_exists. exists b. split.
      + apply filter_In. split; [exact Hb|].
        apply Z.ltb_lt. apply Z.leb_gt in E. exact E.
      + apply Z.eqb_refl. }
  split; [exact Hlogs|]. split.
  - unfold after, Utils.cleanup_old_backups. fold cutoff.
    rewrite delete_all_files. apply filter_ext. intros f. f_equal.
    apply existsb_filter.
  - intros b Hb. rewrite Hlogs, filter_In, Z.leb_le.
    apply most_recent_success_in in Hb. destruct Hb as [Hb|Hb]; [|discriminate].
    tauto.
Qed.

Lemma cleanup_old_backups_by_age_witness :
  Utils.backup_logs (Utils.cleanup_old_backups 60 Sample.wednesday_noon Sample.one_old_backup)
  = [Sample.december_backup].
Proof.
  refine (proj1 (cleanup_old_backups_by_age 60 Sample.wednesday_noon
                   Sample.one_old_backup _)).
  simpl. constructor; [intros []|constructor].
Defined.

(** C5, counterexample.  The only successful backup is forty days old; a
    cleanup with a retention of thirty days deletes its log row and its file. *)
Lemma cleanup_deletes_last_backup :
  let st := Sample.one_old_backup in
  let after := Utils.cleanup_old_backups 30 Sample.wednesday_noon st in
  Utils.most_recent_success st = Some Sample.december_backup
  /\ Utils.backup_files st = [filename Sample.december_backup]
  /\ Utils.backup_logs after = []
  /\ Utils.backup_files after = [].
Proof.
  vm_compute. repeat split; reflexivity.
Qed.

(** ** Token verification *)

(** A token is accepted exactly when its signature is valid under the
    configured secret, it has not expired, its type is 'access', and its
    user id is that of an active user. *)
Lemma verify_jwt_token_accepts_iff
    (cfg : Auth.Config) (users : list User) (now : datetime)
    (token : Auth.Token) (u : User) :
  Auth.verify_jwt_token cfg users now token = Ok (Some u)
  <-> Auth.signature_valid cfg token = true
      /\ Auth.expired now token = false
      /\ exists key claims uid,
           token = Auth.Signed key claims
           /\ Auth.claim_type claims = Some "access"%string
           /\ Auth.claim_user_id claims = Some uid
           /\ Auth.get_user uid users = Some u
           /\ is_active u = true.
Proof.
  unfold Auth.verify_jwt_token, Auth.jwt_decode, Auth.signature_valid, Auth.expired.
  destruct token as [|key claims]; simpl.
  - split; [discriminate|]. intros [H _]. discriminate.
  - destruct (String.eqb key (Auth.JWT_SECRET_KEY cfg)) eqn:Hkey; simpl.
    2: { split; [discriminate|]. intros [H _]. discriminate. }
    assert (Hbody :
      match Auth.item (Auth.claim_type claims) with
      | Ok ty =>
          if negb (String.eqb ty "access") then Ok None
          else match Auth.item (Auth.claim_user_id claims) with
               | Ok uid => match Auth.get_user uid users with
                           | Some user => if is_active user then Ok (Some user) else Ok None
                           | None => Ok None
                           end
               | Raise e => Raise e
               end
      | Raise e => Raise e
      end = Ok (Some u)
      <-> exists key' claims' uid,
            Auth.Signed key claims = Auth.Signed key' claims'
            /\ Auth.claim_type claims' = Some "access"%string
            /\ Auth.claim_user_id claims' = Some uid
            /\ Auth.get_user uid users = Some u
            /\ is_active u = true).
    { split.
      - destruct (Auth.claim_type claims) as [ty|] eqn:Hty; simpl; [|discriminate].
        destruct (String.eqb ty "access") eqn:Hacc; simpl; [|discriminate].
        apply String.eqb_eq in Hacc. subst ty.
        destruct (Auth.claim_user_id claims) as [uid|] eqn:Huid; simpl; [|discriminate].
        destruct (Auth.get_user uid users) as [user|] eqn:Huser; [|discriminate].
        destruct (is_active user) eqn:Hact; [|discriminate].
        intros [= <-]. exists key, claims, uid. repeat split; assumption.
      - intros [key' [claims' [uid [[= <- <-] [Hty [Huid [Huser Hact]]]]]]].
        rewrite Hty, Huid. simpl. rewrite Huser, Hact. reflexivity. }
    destruct (Auth.claim_exp claims) as [exp|]; [destruct (exp <=? now)|].
    + split; [discriminate|]. intros [_ [H _]]. discriminate.
    + rewrite Hbody. tauto.
    + rewrite Hbody. tauto.
Qed.

(** An access token issued for an active user is accepted until its
    24 hours have passed, and refused from then on. *)
Lemma issued_token_validity
    (secret : string) (users : list User) (t dt : Z) (u : User) :
  Auth.get_user (user_id u) users = Some u ->
  is_active u = true ->
  let cfg := Auth.default_config secret in
  Auth.verify_jwt_token cfg users (t + dt) (Auth.generate_jwt_token cfg t u)
  = if dt <? 86400 then Ok (Some u) else Ok None.
Proof.
  intros Huser Hact cfg.
  unfold Auth.verify_jwt_token, Auth.jwt_decode, Auth.generate_jwt_token.
  cbn [Auth.JWT_SECRET_KEY Auth.JWT_ACCESS_TOKEN_EXPIRES Auth.default_config cfg
       Auth.claim_exp Auth.claim_type Auth.claim_user_id Auth.item].
  rewrite String.eqb_refl. cbn [negb].
  unfold timedelta_hours.
  destruct (dt <? 86400) eqn:E.
  - apply Z.ltb_lt in E.
    replace (t + 24 * 3600 <=? t + dt) with false by (symmetry; apply Z.leb_gt; lia).
    cbn [Auth.claim_type Auth.claim_user_id Auth.item].
    change (String.eqb "access" "access") with true. cbn [negb].
    rewrite Huser, Hact. reflexivity.
  - apply Z.ltb_ge in E.
    replace (t + 24 * 3600 <=? t + dt) with true by (symmetry; apply Z.leb_le; lia).
    reflexivity.
Qed.

(** A refresh token is never accepted as an access token. *)
Lemma refresh_token_refused
    (cfg : Auth.Config) (users : list User) (t now : Z) (u : User) :
  Auth.verify_jwt_token cfg users now (Auth.generate_refresh_token cfg t u) = Ok None.
Proof.
  unfold Auth.verify_jwt_token, Auth.jwt_decode, Auth.generate_refresh_token. simpl.
  rewrite String.eqb_refl. simpl.
  destruct (t + Auth.JWT_REFRESH_TOKEN_EXPIRES cfg <=? now); reflexivity.
Qed.

(** When the claims carry both 'type' and 'user_id', as every token issued
    by this application does, verification returns: the user or nothing. *)
Lemma verify_jwt_token_returns
    (cfg : Auth.Config) (users : list User) (now : datetime)
    (key : string) (claims : Auth.Payload) :
  Auth.claim_type claims <> None ->
  Auth.claim_user_id claims <> None ->
  exists r, Auth.verify_jwt_token cfg users now (Auth.Signed key claims) = Ok r.
Proof.
  intros Hty Huid.
  unfold Auth.verify_jwt_token, Auth.jwt_decode.
  destruct (negb (String.eqb key (Auth.JWT_SECRET_KEY cfg))); [eexists; reflexivity|].
  assert (Hbody : exists r,
    match Auth.item (Auth.claim_type claims) with
    | Ok ty =>
        if negb (String.eqb ty "access") then Ok None
        else match Auth.item (Auth.claim_user_id claims) with
             | Ok uid => match Auth.get_user uid users with
                         | Some user => if is_active user then Ok (Some user) else Ok None
                         | None => Ok None
                         end
             | Raise e => Raise e
             end
    | Raise e => Raise e
    end = Ok r).
  { destruct (Auth.claim_type claims) as [ty|]; [|contradiction]. simpl.
    destruct (negb (String.eqb ty "access")); [eexists; reflexivity|].
    destruct (Auth.claim_user_id claims) as [uid|]; [|contradiction]. simpl.
    destruct (Auth.get_user uid users) as [user|]; [|eexists; reflexivity].
    destruct (is_active user); eexists; reflexivity. }
  destruct (Auth.claim_exp claims) as [exp|]; [destruct (exp <=? now)|];
    (exact Hbody || (eexists; reflexivity)).
Qed.

(** C8, at the failing input.  Claims signed under the configured secret
    and not expired, which lack the 'type' key: the lookup [payload['type']]
    raises [KeyError], which neither [except] clause catches, so the token
    is not answered with [None]. *)
Theorem verify_jwt_token_untyped_raises :
  Auth.signature_valid Sample.config Sample.untyped_token = true
  /\ Auth.expired Sample.wednesday_noon Sample.untyped_token = false
  /\ Auth.verify_jwt_token Sample.config Sample.users Sample.wednesday_noon
       Sample.untyped_token = Raise KeyError.
Proof.
  vm_compute. repeat split; reflexivity.
Qed.

(** ** Order creation: what a successful request commits *)

Lemma clean_visible (s : Session) :
  Spec.clean s -> Db.visible s = union_rows (committed s) no_rows.
Proof. unfold Spec.clean, Db.visible. intros ->. reflexivity. Qed.

Lemma find_product_id (catalog : list Product) (id : Z) (p : Product) :
  find (fun p => product_id p =? id) catalog = Some p -> product_id p = id.
Proof.
  intros H. apply find_some in H. destruct H as [_ H]. apply Z.eqb_eq. exact H.
Qed.

Lemma add_items_inv (oid : Z) (items : list Api.ItemData) :
  forall (total : Q) (s : Session) (r : Z + Q) (s' : Session),
    Api.add_items oid items total s = (r, s') ->
    products s' = products s /\ settings s' = settings s
    /\ committed s' = committed s /\ flushes s' = flushes s
    /\ orders (pending s') = orders (pending s)
    /\ transactions (pending s') = transactions (pending s)
    /\ exists new,
         order_items (pending s') = order_items (pending s) ++ new
         /\ Forall (fun it => item_order_id it = oid /\ Spec.line_total_ok it) new
         /\ match r with
            | inr t => (t == total + Spec.subtotal new)%Q
                       /\ Forall2 (Spec.api_line (products s)) items new
            | inl missing => Db.get_product missing s = None
            end.
Proof.
  induction items as [|d items IH]; intros total s r s' H; simpl in H.
  - injection H as <- <-. repeat (split; [reflexivity|]).
    exists []. rewrite app_nil_r. repeat split; try constructor.
    simpl. ring.
  - destruct (Db.get_product (Api.d_product_id d) s) as [product|] eqn:Hp.
    + apply IH in H.
      destruct H as (H1 & H2 & H3 & H4 & H5 & H6 & new & Hitems & Hall & Hr).
      repeat (split; [assumption|]).
      eexists (_ :: new). split; [|split].
      * rewrite Hitems. simpl. rewrite <- app_assoc. reflexivity.
      * constructor; [|exact Hall]. split; [reflexivity|].
        unfold Spec.line_total_ok. simpl. reflexivity.
      * destruct r as [missing|t]; [exact Hr|].
        destruct Hr as [Ht Hlines]. split.
        -- rewrite Ht. simpl. ring.
        -- constructor; [|exact Hlines].
           unfold Spec.api_line, Spec.unit_price_rule, Spec.catalog_price. simpl.
           pose proof (find_product_id _ _ Hp) as Hid.
           repeat split; [exact Hid|].
           destruct (Api.d_unit_price d); [reflexivity|].
           rewrite Hid. unfold Db.get_product in Hp. rewrite Hp. reflexivity.
    + injection H as <- <-. repeat (split; [reflexivity|]).
      exists []. rewrite app_nil_r. repeat split; try constructor. exact Hp.
Qed.

Lemma max_id_bound (l : list Order) (o : Order) :
  In o l -> order_id o <= fold_right Z.max 0 (map order_id l).
Proof.
  induction l as [|x l IH]; simpl; intros H; [contradiction|].
  destruct H as [<-|H]; [lia|]. apply IH in H. lia.
Qed.

Lemma find_fresh_order (l : list Order) (o : Order) (id : Z) :
  order_id o = id ->
  id = 1 + fold_right Z.max 0 (map order_id l) ->
  find (fun x => order_id x =? id) (l ++ [o]) = Some o.
Proof.
  intros Ho Hid.
  assert (Hold : forall x, In x l -> (order_id x =? id) = false).
  { intros x Hx. apply Z.eqb_neq. pose proof (max_id_bound l x Hx). lia. }
  clear Hid. induction l as [|x l IH]; simpl.
  - rewrite Ho, Z.eqb_refl. reflexivity.
  - rewrite (Hold x (or_introl eq_refl)). apply IH.
    intros y Hy. apply Hold. right. exact Hy.
Qed.

Lemma next_order_id_clean (s : Session) :
  Spec.clean s -> Db.next_order_id s = 1 + Spec.max_order_id (committed s).
Proof.
  intros H. unfold Db.next_order_id, Spec.max_order_id.
  rewrite (clean_visible H). simpl. rewrite app_nil_r. reflexivity.
Qed.

(** A successful API request commits, on top of what was committed, one
    order, its lines and one ledger entry, and leaves nothing pending. *)
Lemma create_order_created
    (env : Env) (now : datetime) (uid : Z) (data : Api.OrderData)
    (s : Session) (r : option Order) (s' : Session) :
  Spec.clean s ->
  Api.create_order env now uid data s = (Api.Created r, s') ->
  exists o lines tx total,
    r = Some o
    /\ committed s' = union_rows (committed s)
                        {| orders := [o]; order_items := lines; transactions := [tx] |}
    /\ pending s' = no_rows
    /\ order_id o = 1 + Spec.max_order_id (committed s)
    /\ tax_amount o = 0%Q
    /\ total_amount o = Some (total - discount_amount o + 0)%Q
    /\ (total == Spec.subtotal lines)%Q
    /\ Forall (fun it => item_order_id it = order_id o /\ Spec.line_total_ok it) lines
    /\ Forall2 (Spec.api_line (products s)) (Api.d_items data) lines
    /\ Spec.sale_of o tx.
Proof.
  intros Hclean H. unfold Api.create_order in H.
  destruct (Api.d_items data) as [|d0 items0] eqn:Hitems; [discriminate|].
  rewrite <- Hitems in *. clear Hitems d0 items0.
  unfold Db.add_order_flush in H.
  rewrite (clean_visible Hclean) in H.
  destruct (existsb _ _); [discriminate|].
  destruct (flush_error env); [discriminate|].
  match type of H with
  | context [Api.add_items ?oid ?items ?t ?s1] =>
      destruct (Api.add_items oid items t s1) as [[missing|total] s2] eqn:Hloop
  end; [discriminate|].
  apply add_items_inv in Hloop.
  destruct Hloop as (H1 & H2 & H3 & H4 & H5 & H6 & lines & Hlines & Hall & Ht & Hrule).
  unfold Db.commit in H. destruct (commit_error env); [discriminate|].
  injection H as Hr Hs'.
  cbn [products settings committed pending flushes orders order_items transactions
       Db.with_pending] in H1, H2, H3, H4, H5, H6, Hlines.
  unfold Spec.clean in Hclean. rewrite Hclean in H5, H6, Hlines.
  cbn [orders order_items transactions no_rows app] in H5, H6, Hlines.
  subst s' r.
  unfold Db.get_order, Db.visible, Db.add_transaction, Db.update_pending_order, union_rows.
  cbn [products settings committed pending flushes orders order_items transactions
       Db.with_pending no_rows].
  rewrite H3, H5, H6, Hlines.
  cbn [map app order_id]. rewrite Z.eqb_refl, !app_nil_r.
  pose proof (next_order_id_clean Hclean) as Hnext.
  rewrite find_fresh_order with (o := _); [|reflexivity|exact Hnext].
  eexists _, lines, _, total.
  split; [reflexivity|]. split; [reflexivity|]. split; [reflexivity|].
  cbn [order_id tax_amount total_amount discount_amount].
  split; [exact Hnext|]. split; [reflexivity|]. split; [reflexivity|].
  split; [rewrite Ht; ring|]. split; [exact Hall|].
  split; [exact Hrule|].
  unfold Spec.sale_of. cbn. repeat split; reflexivity.
Qed.

Lemma cart_inv (oid : Z) (ids : list (Pos.text Z)) :
  forall (i : nat) (qs : list (Pos.text Z)) (total : Q) (lines : list Pos.CartLine)
         (s : Session) (t : Q) (lines' : list Pos.CartLine),
    Pos.cart ids i qs total lines s = Ok (t, lines') ->
    exists new,
      lines' = lines ++ new
      /\ (t == total + Spec.subtotal (map (Pos.order_item_of oid) new))%Q
      /\ Forall (fun it => Spec.line_total_ok it
                           /\ Spec.unit_price_rule (products s) None it)
                (map (Pos.order_item_of oid) new).
Proof.
  induction ids as [|pid ids IH]; intros i qs total lines s t lines' H; simpl in H.
  - injection H as <- <-. exists []. rewrite app_nil_r.
    split; [reflexivity|]. split; [simpl; ring|constructor].
  - destruct pid as [|pid|]; simpl in H; [|  |discriminate].
    + apply IH in H. exact H.
    + destruct (nth_error qs i) as [q|]; [|discriminate].
      destruct q as [|quantity|]; simpl in H; try discriminate.
      destruct (Db.get_product pid s) as [product|] eqn:Hp; [|discriminate].
      apply IH in H. destruct H as (new & Hlines & Ht & Hall).
      eexists (_ :: new). split; [|split].
      * rewrite Hlines, <- app_assoc. reflexivity.
      * rewrite Ht. simpl. ring.
      * simpl. constructor; [|exact Hall]. split.
        -- unfold Spec.line_total_ok. simpl. reflexivity.
        -- unfold Spec.unit_price_rule, Spec.catalog_price. simpl.
           unfold Db.get_product in Hp.
           rewrite (find_product_id _ _ Hp), Hp. reflexivity.
Qed.

(** The loop adds a line for every product field that is filled in. *)
Lemma cart_no_lines (ids : list (Pos.text Z)) :
  forall (i : nat) (qs : list (Pos.text Z)) (total : Q) (lines : list Pos.CartLine)
         (s : Session) (t : Q),
    Pos.cart ids i qs total lines s = Ok (t, lines) ->
    Forall (fun x => x = Pos.Blank) ids.
Proof.
  induction ids as [|pid ids IH]; intros i qs total lines s t H; [constructor|].
  simpl in H. destruct pid as [|pid|]; simpl in H; [|  |discriminate].
  - constructor; [reflexivity|]. eapply IH. exact H.
  - exfalso.
    destruct (nth_error qs i) as [q|]; [|discriminate].
    destruct q as [|quantity|]; simpl in H; try discriminate.
    destruct (Db.get_product pid s) as [product|]; [|discriminate].
    apply (cart_inv 0) in H. destruct H as (new & Hlines & _).
    apply (f_equal (@List.length _)) in Hlines.
    rewrite !length_app in Hlines. simpl in Hlines. lia.
Qed.

Lemma add_lines_inv (oid : Z) (lines : list Pos.CartLine) :
  forall (s : Session),
    let s' := Pos.add_lines oid lines s in
    products s' = products s /\ settings s' = settings s
    /\ committed s' = committed s /\ flushes s' = flushes s
    /\ orders (pending s') = orders (pending s)
    /\ transactions (pending s') = transactions (pending s)
    /\ order_items (pending s')
       = order_items (pending s) ++ map (Pos.order_item_of oid) lines.
Proof.
  induction lines as [|c lines IH]; intros s; simpl.
  - rewrite app_nil_r. repeat split; reflexivity.
  - destruct (IH (Db.add_item (Pos.order_item_of oid c) s))
      as (H1 & H2 & H3 & H4 & H5 & H6 & H7).
    unfold Pos.add_lines in *. simpl in *.
    rewrite H1, H2, H3, H4, H5, H6, H7, <- app_assoc. repeat split; reflexivity.
Qed.

(** A successful POS request commits, on top of what was committed, one
    order, its lines and one ledger entry, and leaves nothing pending. *)
Lemma new_order_placed
    (env : Env) (now : datetime) (uid : Z) (form : Pos.OrderForm)
    (s : Session) (n : OrderNumber) (s' : Session) :
  Spec.clean s ->
  Pos.new_order env now uid form s = (Pos.OrderPlaced n, s') ->
  exists o lines tx total,
    order_number o = n
    /\ committed s' = union_rows (committed s)
                        {| orders := [o]; order_items := lines; transactions := [tx] |}
    /\ pending s' = no_rows
    /\ order_id o = 1 + Spec.max_order_id (committed s)
    /\ tax_amount o
       = ((total - discount_amount o)
          * match Db.first_settings s with
            | Some settings => tax_rate settings
            | None => 0
            end / 100)%Q
    /\ total_amount o = Some (total - discount_amount o + tax_amount o)%Q
    /\ (total == Spec.subtotal lines)%Q
    /\ Forall (fun it => item_order_id it = order_id o) lines
    /\ Forall (fun it => Spec.line_total_ok it
                         /\ Spec.unit_price_rule (products s) None it) lines
    /\ Spec.sale_of o tx.
Proof.
  intros Hclean H.
  pose proof (next_order_id_clean Hclean) as Hnext.
  destruct s as [catalog sets com pend fl].
  unfold Spec.clean in Hclean. cbn [pending] in Hclean. subst pend.
  unfold Pos.new_order in H.
  destruct (Pos.csrf_ok form); [|discriminate]. cbn [negb] in H.
  match type of H with
  | context [match ?d with Ok _ => _ | Raise _ => _ end] =>
      destruct d as [discount|] eqn:Hdiscount
  end; [|discriminate].
  destruct (Pos.f_product_ids form) as [|p0 ids0] eqn:Hids; [discriminate|].
  rewrite <- Hids in *. clear Hids p0 ids0.
  destruct (Pos.cart _ _ _ _ _ _) as [[total lines]|] eqn:Hcart; [|discriminate].
  destruct (Pos.arith _ Pos.PyFloat) as [total_repr|]; [|discriminate].
  destruct (Pos.arith total_repr _); [|discriminate].
  unfold Db.add_order_flush in H.
  destruct (existsb _ _); [discriminate|].
  destruct (flush_error env); [discriminate|].
  unfold Db.commit in H. destruct (commit_error env); [discriminate|].
  injection H as Hn Hs'.
  set (s := {| products := catalog; settings := sets; committed := com;
               pending := no_rows; flushes := fl |}) in *.
  apply (cart_inv (Db.next_order_id s)) in Hcart.
  destruct Hcart as (new & Hlines & Ht & Hall).
  cbn [app] in Hlines. subst lines.
  match type of Hs' with
  | context [Pos.add_lines ?oid ?ls ?s1] =>
      destruct (add_lines_inv oid ls s1) as (H1 & H2 & H3 & H4 & H5 & H6 & H7)
  end.
  subst s' n.
  unfold Db.visible, Db.add_transaction, union_rows.
  cbn [products settings committed pending flushes orders order_items transactions
       Db.with_pending no_rows order_id order_number].
  rewrite H3, H5, H6, H7.
  cbn [products settings committed pending flushes orders order_items transactions
       Db.with_pending no_rows order_id order_number app s].
  eexists _, (map (Pos.order_item_of (Db.next_order_id s)) new), _, total.
  split; [|split; [reflexivity|]]; [reflexivity|].
  split; [reflexivity|].
  cbn [order_id tax_amount total_amount discount_amount].
  split; [exact Hnext|]. split; [reflexivity|]. split; [reflexivity|].
  split; [rewrite Ht; ring|].
  split; [apply Forall_forall; intros it Hit; apply in_map_iff in Hit;
          destruct Hit as [c [<- _]]; reflexivity|].
  split; [exact Hall|].
  unfold Spec.sale_of. cbn. repeat split; reflexivity.
Qed.

Lemma items_of_new (t : Tables) (o : Order) (lines : list OrderItem) (txs : list Transaction) :
  Spec.references_known t = true ->
  order_id o = 1 + Spec.max_order_id t ->
  Forall (fun it => item_order_id it = order_id o) lines ->
  Spec.items_of o (union_rows t {| orders := [o]; order_items := lines;
                                   transactions := txs |}) = lines.
Proof.
  intros Hknown Hid Hlines.
  unfold Spec.items_of, union_rows. cbn [order_items].
  rewrite filter_app.
  apply andb_true_iff in Hknown. destruct Hknown as [Hitems _].
  rewrite forallb_forall in Hitems.
  rewrite filter_none, filter_all; [reflexivity| |].
  - intros it Hit. rewrite Forall_forall in Hlines.
    apply Z.eqb_eq. apply Hlines. exact Hit.
  - intros it Hit. apply Hitems in Hit. apply Z.leb_le in Hit.
    apply Z.eqb_neq. lia.
Qed.

Lemma ledger_of_new (t : Tables) (o : Order) (lines : list OrderItem) (tx : Transaction) :
  Spec.references_known t = true ->
  order_id o = 1 + Spec.max_order_id t ->
  Spec.sale_of o tx ->
  Spec.ledger_of o (union_rows t {| orders := [o]; order_items := lines;
                                    transactions := [tx] |}) = [tx].
Proof.
  intros Hknown Hid (_ & _ & _ & Hrt & Hrid).
  unfold Spec.ledger_of, union_rows. cbn [transactions].
  rewrite filter_app.
  apply andb_true_iff in Hknown. destruct Hknown as [_ Htxs].
  rewrite forallb_forall in Htxs.
  rewrite filter_none.
  - simpl. unfold Spec.refers_to. rewrite Hrt, Hrid, Z.eqb_refl. reflexivity.
  - intros x Hx. apply Htxs in Hx. unfold Spec.refers_to.
    destruct (reference_type x) as [rt|]; [|reflexivity].
    destruct (reference_id x) as [id|]; [|reflexivity].
    destruct (String.eqb rt "order"); [|reflexivity].
    simpl in Hx. apply Z.leb_le in Hx. simpl. apply Z.eqb_neq. lia.
Qed.





(** ** Order creation keeps the hypotheses of the two theorems above *)

Lemma max_order_id_nonneg (t : Tables) : 0 <= Spec.max_order_id t.
Proof.
  unfold Spec.max_order_id. induction (orders t) as [|o l IH]; simpl; lia.
Qed.

Lemma max_id_snoc (l : list Order) (o : Order) :
  fold_right Z.max 0 (map order_id (l ++ [o]))
  = Z.max (fold_right Z.max 0 (map order_id l)) (order_id o) \/ order_id o < 0.
Proof.
  destruct (Z.ltb_spec (order_id o) 0) as [Hneg|Hpos]; [right; exact Hneg|left].
  induction l as [|x l IH]; cbn [app map fold_right].
  - lia.
  - rewrite IH. lia.
Qed.

Lemma max_order_id_new (t : Tables) (o : Order) (lines : list OrderItem)
    (txs : list Transaction) :
  order_id o = 1 + Spec.max_order_id t ->
  Spec.max_order_id (union_rows t {| orders := [o]; order_items := lines;
                                     transactions := txs |})
  = order_id o.
Proof.
  intros Hid. pose proof (max_order_id_nonneg t) as H0.
  unfold Spec.max_order_id, union_rows in *. cbn [orders].
  destruct (max_id_snoc (orders t) o) as [H|H]; lia.
Qed.

Lemma references_known_after_create
    (t : Tables) (o : Order) (lines : list OrderItem) (tx : Transaction) :
  Spec.references_known t = true ->
  order_id o = 1 + Spec.max_order_id t ->
  Forall (fun it => item_order_id it = order_id o) lines ->
  Spec.sale_of o tx ->
  Spec.references_known
    (union_rows t {| orders := [o]; order_items := lines; transactions := [tx] |})
  = true.
Proof.
  intros Hknown Hid Hlines (_ & _ & _ & Hrt & Hrid).
  pose proof (max_order_id_nonneg t) as H0.
  unfold Spec.references_known in *.
  rewrite (max_order_id_new t o lines [tx] Hid).
  apply andb_true_iff in Hknown. destruct Hknown as [Hitems Htxs].
  rewrite forallb_forall in Hitems, Htxs.
  apply andb_true_iff. split; apply forallb_forall; cbn [order_items transactions union_rows].
  - intros it Hit. apply in_app_or in Hit. destruct Hit as [Hit|Hit].
    + apply Hitems in Hit. apply Z.leb_le in Hit. apply Z.leb_le. lia.
    + rewrite Forall_forall in Hlines. apply Hlines in Hit. apply Z.leb_le. lia.
  - intros x Hx. apply in_app_or in Hx. destruct Hx as [Hx|[<-|[]]].
    + apply Htxs in Hx.
      destruct (reference_type x) as [rt|]; [|reflexivity].
      destruct (reference_id x) as [id|]; [|reflexivity].
      apply orb_true_iff in Hx. apply orb_true_iff.
      destruct Hx as [Hx|Hx]; [left; exact Hx|right].
      apply Z.leb_le in Hx. apply Z.leb_le. lia.
    + rewrite Hrt, Hrid. apply orb_true_iff. right. apply Z.leb_le. lia.
Qed.

(** A successful request of either handler leaves a session in which the
    next request finds the same two conditions again. *)
Lemma order_creation_keeps_conditions
    (env : Env) (now : datetime) (uid : Z) (s s' : Session) :
  Spec.clean s ->
  Spec.references_known (committed s) = true ->
  (forall data r, Api.create_order env now uid data s = (Api.Created r, s') ->
                  Spec.clean s' /\ Spec.references_known (committed s') = true)
  /\ (forall form n, Pos.new_order env now uid form s = (Pos.OrderPlaced n, s') ->
                     Spec.clean s' /\ Spec.references_known (committed s') = true).
Proof.
  intros Hclean Hknown. split.
  - intros data r H.
    destruct (create_order_created _ _ _ _ Hclean H)
      as (o & lines & tx & total & _ & Hcom & Hpend & Hid & _ & _ & _
          & Hall & _ & Hsale).
    split; [exact Hpend|]. rewrite Hcom.
    apply references_known_after_create; try assumption.
    eapply Forall_impl; [|exact Hall]. intros it [Hit _]. exact Hit.
  - intros form n H.
    destruct (new_order_placed _ _ _ _ Hclean H)
      as (o & lines & tx & total & _ & Hcom & Hpend & Hid & _ & _ & _
          & Hoid & _ & Hsale).
    split; [exact Hpend|]. rewrite Hcom.
    apply references_known_after_create; assumption.
Qed.

(** ** Order creation: tax *)

(** Whatever the tax rate in the settings, an order created through the API
    carries a tax amount of zero. *)
Lemma create_order_tax_zero
    (env : Env) (now : datetime) (uid : Z) (data : Api.OrderData)
    (s : Session) (o : Order) (s' : Session) :
  Spec.clean s ->
  Api.create_order env now uid data s = (Api.Created (Some o), s') ->
  tax_amount o = 0%Q.
Proof.
  intros Hclean H.
  destruct (create_order_created _ _ _ _ Hclean H)
    as (o' & _ & _ & _ & Hr & _ & _ & _ & Htax & _).
  injection Hr as ->. exact Htax.
Qed.

(** An order created through the POS form carries the tax computed from the
    tax rate of the settings (0 without a settings row), unrounded. *)
Lemma new_order_tax
    (env : Env) (now : datetime) (uid : Z) (form : Pos.OrderForm)
    (s : Session) (n : OrderNumber) (s' : Session) :
  Spec.clean s ->
  Spec.references_known (committed s) = true ->
  Pos.new_order env now uid form s = (Pos.OrderPlaced n, s') ->
  exists o,
    order_number o = n /\ In o (orders (committed s'))
    /\ (tax_amount o
        == (Spec.subtotal (Spec.items_of o (committed s')) - discount_amount o)
           * match Db.first_settings s with
             | Some settings => tax_rate settings
             | None => 0
             end / 100)%Q.
Proof.
  intros Hclean Hknown H.
  destruct (new_order_placed _ _ _ _ Hclean H)
    as (o & lines & tx & total & Hn & Hcom & _ & Hid & Htax & _ & Hsum & Hoid & _).
  exists o. split; [exact Hn|]. split.
  { rewrite Hcom. simpl. apply in_or_app. right. left. reflexivity. }
  rewrite Hcom, items_of_new by assumption.
  rewrite Htax, Hsum. reflexivity.
Qed.

(** The POS form subtracts the discount, a [float], from the sum of the
    lines, a [Decimal] as soon as there is a line, and multiplies the result
    by the tax rate of the settings, a [Decimal]: the handler places an order
    only when no product field of the form is filled in and there is no
    settings row. *)
Lemma new_order_placed_without_lines
    (env : Env) (now : datetime) (uid : Z) (form : Pos.OrderForm)
    (s : Session) (n : OrderNumber) (s' : Session) :
  Pos.new_order env now uid form s = (Pos.OrderPlaced n, s') ->
  Forall (fun t => t = Pos.Blank) (Pos.f_product_ids form)
  /\ Db.first_settings s = None.
Proof.
  unfold Pos.new_order. intros H.
  destruct (Pos.csrf_ok form); [|discriminate]. cbn [negb] in H.
  match type of H with
  | context [match ?d with Ok _ => _ | Raise _ => _ end] =>
      destruct d as [discount|]
  end; [|discriminate].
  destruct (Pos.f_product_ids form) as [|p0 ids0] eqn:Hids; [discriminate|].
  rewrite <- Hids in *. clear Hids p0 ids0.
  destruct (Pos.cart _ _ _ _ _ _) as [[total lines]|] eqn:Hcart; [|discriminate].
  destruct lines as [|c lines]; [|discriminate].
  apply cart_no_lines in Hcart.
  destruct (Db.first_settings s); [discriminate|].
  split; [exact Hcart|reflexivity].
Qed.


(** ** Order creation: failures *)

(** Every exception inside the [try] of the API handler ends in a rollback:
    nothing is pending and nothing was committed. *)
Lemma create_order_exception_rolled_back
    (env : Env) (now : datetime) (uid : Z) (data : Api.OrderData)
    (s : Session) (msg : string) (s' : Session) :
  Api.create_order env now uid data s = (Api.InternalError msg, s') ->
  pending s' = no_rows /\ committed s' = committed s.
Proof.
  unfold Api.create_order. intros H.
  destruct (Api.d_items data) as [|d0 items0] eqn:Hitems; [discriminate|].
  rewrite <- Hitems in *. clear Hitems d0 items0.
  unfold Db.add_order_flush in H.
  destruct (existsb _ _).
  { injection H as _ <-. split; reflexivity. }
  destruct (flush_error env).
  { injection H as _ <-. split; reflexivity. }
  match type of H with
  | context [Api.add_items ?oid ?items ?t ?s1] =>
      destruct (Api.add_items oid items t s1) as [[missing|total] s2] eqn:Hloop
  end; [discriminate|].
  apply add_items_inv in Hloop. destruct Hloop as (_ & _ & H3 & _).
  unfold Db.commit in H. destruct (commit_error env); [|discriminate].
  injection H as _ <-. split; [reflexivity|exact H3].
Qed.

(** Every failure of the POS handler ends in a rollback. *)
Lemma new_order_failure_rolled_back
    (env : Env) (now : datetime) (uid : Z) (form : Pos.OrderForm)
    (s s' : Session) :
  Pos.new_order env now uid form s = (Pos.CreateFailed, s') ->
  pending s' = no_rows /\ committed s' = committed s.
Proof.
  unfold Pos.new_order. intros H.
  destruct (Pos.csrf_ok form); cbn [negb] in H.
  2: { injection H as <-. split; reflexivity. }
  match type of H with
  | context [match ?d with Ok _ => _ | Raise _ => _ end] => destruct d as [discount|]
  end.
  2: { injection H as <-. split; reflexivity. }
  destruct (Pos.f_product_ids form) as [|p0 ids0] eqn:Hids; [discriminate|].
  rewrite <- Hids in *. clear Hids p0 ids0.
  destruct (Pos.cart _ _ _ _ _ _) as [[total lines]|].
  2: { injection H as <-. split; reflexivity. }
  destruct (Pos.arith _ Pos.PyFloat) as [total_repr|].
  2: { injection H as <-. split; reflexivity. }
  destruct (Pos.arith total_repr _).
  2: { injection H as <-. split; reflexivity. }
  unfold Db.add_order_flush in H.
  destruct (existsb _ _).
  { injection H as <-. split; reflexivity. }
  destruct (flush_error env).
  { injection H as <-. split; reflexivity. }
  unfold Db.commit in H. destruct (commit_error env); [|discriminate].
  injection H as <-. split; [reflexivity|].
  match goal with
  | |- context [Pos.add_lines ?oid ?ls ?s1] =>
      destruct (add_lines_inv oid ls s1) as (_ & _ & H3 & _)
  end.
  cbn [committed Db.rollback Db.add_transaction Db.with_pending]. exact H3.
Qed.

(** Neither handler commits anything unless it reports the order as created. *)
Lemma nothing_committed_without_success
    (env : Env) (now : datetime) (uid : Z) (s : Session) :
  (forall data r s',
      Api.create_order env now uid data s = (r, s') ->
      (forall ro, r <> Api.Created ro) -> committed s' = committed s)
  /\ (forall form r s',
         Pos.new_order env now uid form s = (r, s') ->
         (forall n, r <> Pos.OrderPlaced n) -> committed s' = committed s).
Proof.
  split.
  - intros data r s' H Hr.
    destruct r as [ro|msg|missing| |o|msg].
    + exfalso. exact (Hr ro eq_refl).
    + unfold Api.create_order in H.
      destruct (Api.d_items data); [injection H as _ <-; reflexivity|].
      destruct (Db.add_order_flush _ _ _) as [[order|e] s1]; [|discriminate].
      destruct (Api.add_items _ _ _ _) as [[m|t] s2]; [discriminate|].
      destruct (Db.commit _ _); discriminate.
    + unfold Api.create_order in H.
      destruct (Api.d_items data) as [|d0 items0] eqn:Hitems; [discriminate|].
      rewrite <- Hitems in *. clear Hitems d0 items0.
      unfold Db.add_order_flush in H.
      destruct (existsb _ _); [discriminate|].
      destruct (flush_error env); [discriminate|].
      match type of H with
      | context [Api.add_items ?oid ?items ?t ?s1] =>
          destruct (Api.add_items oid items t s1) as [[m|t'] s2] eqn:Hloop
      end.
      * apply add_items_inv in Hloop. destruct Hloop as (_ & _ & H3 & _).
        injection H as _ <-. exact H3.
      * destruct (Db.commit _ _); discriminate.
    + unfold Api.create_order in H.
      destruct (Api.d_items data); [discriminate|].
      destruct (Db.add_order_flush _ _ _) as [[order|e] s1]; [|discriminate].
      destruct (Api.add_items _ _ _ _) as [[m|t] s2]; [discriminate|].
      destruct (Db.commit _ _); discriminate.
    + unfold Api.create_order in H.
      destruct (Api.d_items data); [discriminate|].
      destruct (Db.add_order_flush _ _ _) as [[order|e] s1]; [|discriminate].
      destruct (Api.add_items _ _ _ _) as [[m|t] s2]; [discriminate|].
      destruct (Db.commit _ _); discriminate.
    + apply create_order_exception_rolled_back in H. apply H.
  - intros form r s' H Hr.
    destruct r as [n| | | | | |]; try (exfalso; exact (Hr n eq_refl)).
    2: { apply new_order_failure_rolled_back in H. apply H. }
    all: unfold Pos.new_order in H;
      destruct (Pos.csrf_ok form); cbn [negb] in H; [|discriminate];
      match type of H with
      | context [match ?d with Ok _ => _ | Raise _ => _ end] => destruct d as [discount|]
      end; [|discriminate];
      destruct (Pos.f_product_ids form); [try discriminate; injection H as <-; reflexivity|];
      destruct (Pos.cart _ _ _ _ _ _) as [[total lines]|]; [|discriminate];
      destruct (Pos.arith _ Pos.PyFloat) as [total_repr|]; [|discriminate];
      destruct (Pos.arith total_repr _); [|discriminate];
      destruct (Db.add_order_flush _ _ _) as [[order|e] s1]; [|discriminate];
      destruct (Db.commit _ _); discriminate.
Qed.


(** ** Order creation: a duplicate order number *)

(** C7, as the code has it.  When the generated order number is already in
    use, the INSERT is sent once and its failure is final: the API handler
    rolls back and answers with the generic 500 'Failed to create order';
    the POS handler never reports an order as placed.  Neither sends a
    second INSERT, and nothing is committed. *)
Theorem duplicate_order_number_not_retried :
  forall (env : Env) (now : datetime) (uid : Z) (s : Session),
    Spec.number_taken now s = true ->
    (forall data,
        Api.d_items data <> [] ->
        exists s',
          Api.create_order env now uid data s
          = (Api.InternalError "Failed to create order", s')
          /\ flushes s' = S (flushes s)
          /\ pending s' = no_rows
          /\ committed s' = committed s)
    /\ (forall form r s',
           Pos.new_order env now uid form s = (r, s') ->
           (r = Pos.CartEmpty \/ r = Pos.CreateFailed)
           /\ (flushes s' <= S (flushes s))%nat
           /\ committed s' = committed s).
Proof.
  intros env now uid s Htaken. unfold Spec.number_taken in Htaken. split.
  - intros data Hitems. unfold Api.create_order.
    destruct (Api.d_items data) as [|d0 items0]; [contradiction|].
    unfold Db.add_order_flush. cbn [order_number]. rewrite Htaken.
    eexists. split; [reflexivity|]. repeat split.
  - intros form r s' H. unfold Pos.new_order in H.
    destruct (Pos.csrf_ok form); cbn [negb] in H.
    2: { injection H as <- <-. split; [right; reflexivity|]. split; [simpl; lia|reflexivity]. }
    match type of H with
    | context [match ?d with Ok _ => _ | Raise _ => _ end] => destruct d as [discount|]
    end.
    2: { injection H as <- <-. split; [right; reflexivity|]. split; [simpl; lia|reflexivity]. }
    destruct (Pos.f_product_ids form) as [|p0 ids0].
    { injection H as <- <-. split; [left; reflexivity|]. split; [lia|reflexivity]. }
    destruct (Pos.cart _ _ _ _ _ _) as [[total lines]|].
    2: { injection H as <- <-. split; [right; reflexivity|]. split; [simpl; lia|reflexivity]. }
    destruct (Pos.arith _ Pos.PyFloat) as [total_repr|].
    2: { injection H as <- <-. split; [right; reflexivity|]. split; [simpl; lia|reflexivity]. }
    destruct (Pos.arith total_repr _).
    2: { injection H as <- <-. split; [right; reflexivity|]. split; [simpl; lia|reflexivity]. }
    unfold Db.add_order_flush in H. cbn [order_number] in H. rewrite Htaken in H.
    injection H as <- <-. split; [right; reflexivity|]. split; [simpl; lia|reflexivity].
Qed.

Lemma duplicate_order_number_not_retried_witness :
  exists s',
    Api.create_order storage_ok Sample.wednesday_noon 2 Sample.two_shirts
      Sample.shop_with_taken_number
    = (Api.InternalError "Failed to create order", s')
    /\ flushes s' = 1%nat
    /\ pending s' = no_rows
    /\ committed s' = committed Sample.shop_with_taken_number.
Proof.
  refine (proj1 (duplicate_order_number_not_retried storage_ok Sample.wednesday_noon 2
                   Sample.shop_with_taken_number eq_refl) Sample.two_shirts _).
  discriminate.
Defined.

(** C7, counterexample.  The only order of the day holds the sequence value
    2, which is the value generated next.  The insert violates the unique
    index; the handler sends no second INSERT and answers with the generic
    500 'Failed to create order', not with a 409. *)
Lemma duplicate_order_number_is_generic_error :
  let now := Sample.wednesday_noon in
  let s := Sample.shop_with_taken_number in
  Utils.generate_order_number now s = order_number Sample.second_of_the_day
  /\ fst (Db.add_order_flush storage_ok
            (fun id => Sample.second_of_the_day) s) = Raise IntegrityError
  /\ fst (Api.create_order storage_ok now 2 Sample.two_shirts s)
     = Api.InternalError "Failed to create order"
  /\ flushes (snd (Api.create_order storage_ok now 2 Sample.two_shirts s)) = 1%nat.
Proof.
  vm_compute. repeat split; reflexivity.
Qed.

(** * Further properties of the code *)

(** ** Daily and weekly figures *)







Lemma nth_error_seq_inv (a n i x : nat) :
  nth_error (seq a n) i = Some x -> x = (a + i)%nat /\ (i < n)%nat.
Proof.
  revert a i. induction n as [|n IH]; intros a i H.
  - destruct i; discriminate.
  - destruct i as [|i]; simpl in H.
    + injection H as <-. lia.
    + apply IH in H. lia.
Qed.

Lemma date_of_shift (dt : datetime) (k : Z) :
  date_of (dt + timedelta_days k) = date_of dt + k.
Proof.
  unfold date_of, timedelta_days, seconds_per_day. apply Z.div_add. lia.
Qed.

(** X2.  [get_dashboard_stats(days)] returns one entry per day for the
    [days] calendar days that end yesterday: entry [i] is for the date
    [today - days + i], today itself is never among them, and each entry
    carries the income, expense and net income that the daily report gives
    for its date. *)
Theorem dashboard_stats_end_yesterday :
  forall (days : Z) (now : datetime) (s : Session),
    List.length (Reports.get_dashboard_stats days now s) = Z.to_nat days
    /\ forall (i : nat) (st : Reports.DayStat),
         nth_error (Reports.get_dashboard_stats days now s) i = Some st ->
         Reports.stat_date st = date_of now - days + Z.of_nat i
         /\ Reports.stat_date st < date_of now
         /\ Reports.stat_income st
            = Reports.income (Reports.day_figures (Reports.stat_date st) s)
         /\ Reports.stat_expense st
            = Reports.expense (Reports.day_figures (Reports.stat_date st) s)
         /\ Reports.stat_net st
            = Reports.net_income (Reports.day_figures (Reports.stat_date st) s).
Proof.
  intros days now s. unfold Reports.get_dashboard_stats. split.
  - rewrite length_map, length_seq. reflexivity.
  - intros i st H. rewrite nth_error_map in H.
    destruct (nth_error (seq 0 (Z.to_nat days)) i) as [j|] eqn:Hj; [|discriminate].
    apply nth_error_seq_inv in Hj. destruct Hj as [Hj Hlt].
    simpl in Hj. subst j. injection H as <-. cbn [Reports.stat_date Reports.stat_income Reports.stat_expense
                            Reports.stat_net Reports.income Reports.expense
                            Reports.net_income Reports.day_figures].
    assert (Hdate : date_of (now - timedelta_days days + timedelta_days (Z.of_nat i))
                    = date_of now - days + Z.of_nat i).
    { rewrite date_of_shift.
      replace (now - timedelta_days days) with (now + timedelta_days (- days))
        by (unfold timedelta_days; lia).
      rewrite date_of_shift. lia. }
    rewrite Hdate. repeat split; try reflexivity. lia.
Qed.

(** X3.  The report of [generate_daily_report] never divides by zero and
    its completion rate is a percentage: with no order today the rate is 0,
    otherwise it lies between 0 and 100, the completed orders being among
    the orders of the day; its income, expense and net income are those of
    the API's daily report for today. *)
Theorem daily_report_completion_rate :
  forall (now : datetime) (s : Session),
    let r := Reports.generate_daily_report now s in
    (Reports.task_completed_orders r <= Reports.task_total_orders r)%nat
    /\ (0 <= Reports.completion_rate r)%Q
    /\ (Reports.completion_rate r <= 100)%Q
    /\ (Reports.task_total_orders r = 0%nat -> Reports.completion_rate r = 0%Q)
    /\ exists d, Reports.daily_report None now s = Reports.DailyOk d
                 /\ Reports.task_income r = Reports.income d
                 /\ Reports.task_expense r = Reports.expense d
                 /\ Reports.task_net_income r = Reports.net_income d
                 /\ Reports.task_total_orders r = Reports.total_orders d
                 /\ Reports.task_completed_orders r = Reports.completed_orders d.
Proof.
  intros now s r.
  assert (Hle : (Reports.task_completed_orders r <= Reports.task_total_orders r)%nat).
  { unfold r, Reports.generate_daily_report, Reports.day_orders.
    cbn [Reports.task_completed_orders Reports.task_total_orders].
    induction (orders (Db.visible s)) as [|o l IH]; simpl; [lia|].
    destruct (date_of (created_at o) =? date_of now); simpl; [|exact IH].
    destruct (String.eqb (status o) "completed"); simpl; lia. }
  split; [exact Hle|].
  unfold r, Reports.generate_daily_report in *.
  cbn [Reports.task_completed_orders Reports.task_total_orders Reports.completion_rate
       Reports.task_income Reports.task_expense Reports.task_net_income] in *.
  set (c := Reports.day_orders (Some "completed"%string) (date_of now) s) in *.
  set (t := Reports.day_orders None (date_of now) s) in *.
  destruct (0 <? t)%nat eqn:Ht.
  - apply Nat.ltb_lt in Ht.
    assert (Hpos : (0 < inject_Z (Z.of_nat t))%Q).
    { replace 0%Q with (inject_Z 0) by reflexivity. rewrite <- Zlt_Qlt. lia. }
    assert (Hfrac0 : (0 <= inject_Z (Z.of_nat c) / inject_Z (Z.of_nat t))%Q).
    { apply Qle_shift_div_l; [exact Hpos|]. rewrite Qmult_0_l.
      replace 0%Q with (inject_Z 0) by reflexivity. rewrite <- Zle_Qle. lia. }
    assert (Hfrac1 : (inject_Z (Z.of_nat c) / inject_Z (Z.of_nat t) <= 1)%Q).
    { apply Qle_shift_div_r; [exact Hpos|]. rewrite Qmult_1_l.
      rewrite <- Zle_Qle. lia. }
    split; [|split; [|split]].
    + apply Qmult_le_0_compat; [exact Hfrac0|discriminate].
    + setoid_replace 100%Q with (1 * 100)%Q at 2 by ring.
      apply Qmult_le_compat_r; [exact Hfrac1|discriminate].
    + intros H0. lia.
    + eexists. split; [reflexivity|]. repeat split.
  - split; [apply Qle_refl|]. split; [discriminate|]. split; [reflexivity|].
    eexists. split; [reflexivity|]. repeat split.
Qed.

(** ** Export windows *)

Lemma midnight_bounds (now : datetime) :
  now - timedelta_days 1 < midnight now <= now.
Proof.
  unfold midnight, date_of, timedelta_days, seconds_per_day.
  pose proof (Z.div_mod now 86400 ltac:(lia)).
  pose proof (Z.mod_pos_bound now 86400 ltac:(lia)). lia.
Qed.

(** X4.  The periods of the export are nested: for every period name the
    range starts no earlier than thirty days back and no later than today's
    midnight, so every row in a daily export is in the export of any other
    period, every row of a weekly export is in the monthly one, and an
    unknown period name exports the last 24 hours. *)
Theorem export_periods_nested :
  forall (period : string) (now row : datetime),
    (Utils.export_start_date "monthly" now <= Utils.export_start_date period now
     /\ Utils.export_start_date period now <= Utils.export_start_date "daily" now
     /\ Utils.export_start_date "daily" now <= now)
    /\ (Utils.exported "daily" now row = true -> Utils.exported period now row = true)
    /\ (Utils.exported period now row = true -> Utils.exported "monthly" now row = true)
    /\ (Utils.exported "weekly" now row = true -> Utils.exported "monthly" now row = true)
    /\ (period <> "daily"%string -> period <> "weekly"%string ->
        period <> "monthly"%string ->
        Utils.export_start_date period now = now - 86400).
Proof.
  intros period now row.
  pose proof (midnight_bounds now) as Hmid.
  assert (Hrange : Utils.export_start_date "monthly" now
                   <= Utils.export_start_date period now
                   /\ Utils.export_start_date period now
                      <= Utils.export_start_date "daily" now
                   /\ Utils.export_start_date "daily" now <= now).
  { unfold Utils.export_start_date.
    change (String.eqb "monthly" "daily") with false.
    change (String.eqb "monthly" "weekly") with false.
    change (String.eqb "monthly" "monthly") with true.
    change (String.eqb "daily" "daily") with true. cbv iota.
    unfold timedelta_days, seconds_per_day in *.
    destruct (String.eqb period "daily"); [lia|].
    destruct (String.eqb period "weekly"); [lia|].
    destruct (String.eqb period "monthly"); lia. }
  split; [exact Hrange|].
  unfold Utils.exported. rewrite !Z.leb_le.
  split; [lia|]. split; [lia|]. split.
  - unfold Utils.export_start_date in *. simpl. unfold timedelta_days, seconds_per_day. lia.
  - intros Hd Hw Hm. unfold Utils.export_start_date.
    apply String.eqb_neq in Hd, Hw, Hm. rewrite Hd, Hw, Hm.
    unfold timedelta_days, seconds_per_day. lia.
Qed.



(** ** Backups *)

(** X6.  Cleanup is idempotent and only removes: running it a second time
    with the same retention at the same time changes nothing, and every log
    row and every file present afterwards was present before. *)
Theorem cleanup_old_backups_idempotent :
  forall (retention_days : Z) (now : datetime) (st : Utils.Backups),
    let after := Utils.cleanup_old_backups retention_days now st in
    Utils.cleanup_old_backups retention_days now after = after
    /\ incl (Utils.backup_logs after) (Utils.backup_logs st)
    /\ incl (Utils.backup_files after) (Utils.backup_files st).
Proof.
  intros retention_days now st after.
  assert (Hlogs : Utils.backup_logs after
            = filter (fun b => negb (existsb (fun o => backup_id b =? backup_id o)
                        (filter (fun b => backup_created_at b
                                          <? now - timedelta_days retention_days)
                                (Utils.backup_logs st))))
                     (Utils.backup_logs st))
    by apply delete_all_logs.
  split; [|split].
  - unfold Utils.cleanup_old_backups at 1.
    rewrite filter_none; [reflexivity|].
    intros b Hb. rewrite Hlogs in Hb. apply filter_In in Hb.
    destruct Hb as [Hb Hkept].
    destruct (backup_created_at b <? now - timedelta_days retention_days) eqn:Hold;
      [|reflexivity].
    apply negb_true_iff in Hkept.
    assert (Hex : existsb (fun o => backup_id b =? backup_id o)
                    (filter (fun b => backup_created_at b
                                      <? now - timedelta_days retention_days)
                            (Utils.backup_logs st)) = true).
    { apply existsb_exists. exists b. split; [|apply Z.eqb_refl].
      apply filter_In. split; assumption. }
    congruence.
  - rewrite Hlogs. intros b Hb. apply filter_In in Hb. apply Hb.
  - unfold after, Utils.cleanup_old_backups. rewrite delete_all_files.
    intros f Hf. apply filter_In in Hf. apply Hf.
Qed.

Lemma max_backup_id_bound (l : list BackupLog) (b : BackupLog) :
  In b l -> backup_id b <= fold_right Z.max 0 (map backup_id l).
Proof.
  induction l as [|x l IH]; simpl; intros H; [contradiction|].
  destruct H as [<-|H]; [lia|]. apply IH in H. lia.
Qed.

(** The rows and files a successful [create_backup] leaves. *)
Lemma create_backup_done
    (strftime : datetime -> string) (host : Backup.Host) (now : datetime)
    (st : Utils.Backups) (path : string) (st' : Utils.Backups) :
  Backup.create_backup strftime host now st = (inl path, st') ->
  let name := Backup.backup_name (strftime now) in
  let row := {| backup_id := Backup.next_backup_id st; filename := name;
                backup_status := "success"; backup_created_at := now |} in
  let old := filter (fun b => backup_created_at b <? now - timedelta_days 30)
                    (Utils.backup_logs st) in
  path = ("backups/" ++ name)%string
  /\ Utils.backup_logs st'
     = filter (fun b => negb (existsb (fun o => backup_id b =? backup_id o) old))
              (Utils.backup_logs st) ++ [row]
  /\ Utils.backup_files st'
     = filter (fun f => negb (existsb (fun o => String.eqb (filename o) f) old))
              (Utils.backup_files (Backup.copy_to name st)).
Proof.
  intros H name row old. unfold Backup.create_backup in H.
  destruct (Backup.is_sqlite host); [|discriminate].
  destruct (Backup.copy_ok host); [|discriminate].
  fold name in H. injection H as <- <-.
  assert (Hold : filter (fun b => backup_created_at b <? now - timedelta_days 30)
                        (Utils.backup_logs
                           (Backup.log_backup name "success" now (Backup.copy_to name st)))
                 = old).
  { unfold Backup.log_backup, Backup.copy_to. cbn [Utils.backup_logs].
    rewrite filter_app. cbn [filter backup_created_at].
    replace (now <? now - timedelta_days 30) with false
      by (symmetry; apply Z.ltb_ge; unfold timedelta_days, seconds_per_day; lia).
    apply app_nil_r. }
  split; [reflexivity|]. unfold Utils.cleanup_old_backups. rewrite Hold. split.
  - rewrite delete_all_logs. unfold Backup.log_backup, Backup.copy_to.
    cbn [Utils.backup_logs]. rewrite filter_app. f_equal.
    cbn [filter backup_id].
    replace (existsb (fun o => Backup.next_backup_id
                                 {| Utils.backup_logs := Utils.backup_logs st;
                                    Utils.backup_files := _ |} =? backup_id o) old)
      with false; [reflexivity|].
    symmetry. apply not_true_is_false. intros Hex.
    apply existsb_exists in Hex. destruct Hex as [o [Ho Hid]].
    apply filter_In in Ho. destruct Ho as [Ho _].
    apply max_backup_id_bound in Ho. apply Z.eqb_eq in Hid.
    unfold Backup.next_backup_id in Hid. cbn [Utils.backup_logs] in Hid. lia.
  - rewrite delete_all_files. reflexivity.
Qed.

(** X7.  A successful [create_backup] returns the path of the new file and
    leaves a success row for it, dated now, which the cleanup it runs at its
    end never deletes; after it no row older than thirty days is left, every
    earlier row of the last thirty days is still there, and the new file
    exists unless a deleted row carried the same file name. *)
Theorem create_backup_keeps_new_backup :
  forall (strftime : datetime -> string) (host : Backup.Host) (now : datetime)
         (st : Utils.Backups) (path : string) (st' : Utils.Backups),
    NoDup (map backup_id (Utils.backup_logs st)) ->
    Backup.create_backup strftime host now st = (inl path, st') ->
    let name := Backup.backup_name (strftime now) in
    path = ("backups/" ++ name)%string
    /\ (exists row,
          In row (Utils.backup_logs st')
          /\ filename row = name
          /\ backup_status row = "success"%string
          /\ backup_created_at row = now
          /\ ~ In row (Utils.backup_logs st))
    /\ (forall b, In b (Utils.backup_logs st') ->
                  now - timedelta_days 30 <= backup_created_at b)
    /\ (forall b, In b (Utils.backup_logs st) ->
                  now - timedelta_days 30 <= backup_created_at b ->
                  In b (Utils.backup_logs st'))
    /\ ((forall b, In b (Utils.backup_logs st) ->
                   backup_created_at b < now - timedelta_days 30 ->
                   filename b <> name) ->
        In name (Utils.backup_files st')).
Proof.
  intros strftime host now st path st' Hkeys H name.
  destruct (create_backup_done _ _ _ _ H) as (Hpath & Hlogs & Hfiles).
  fold name in Hpath, Hlogs, Hfiles.
  set (old := filter (fun b => backup_created_at b <? now - timedelta_days 30)
                     (Utils.backup_logs st)) in *.
  split; [exact Hpath|]. split; [|split; [|split]].
  - eexists. split; [rewrite Hlogs; apply in_or_app; right; left; reflexivity|].
    repeat split. intros Hin. apply max_backup_id_bound in Hin.
    cbn [backup_id] in Hin. unfold Backup.next_backup_id in Hin. lia.
  - intros b Hb. rewrite Hlogs in Hb. apply in_app_or in Hb.
    destruct Hb as [Hb|[<-|[]]].
    + apply filter_In in Hb. destruct Hb as [Hb Hkept].
      destruct (Z.ltb_spec (backup_created_at b) (now - timedelta_days 30)) as [Hlt|Hge];
        [|exact Hge].
      apply negb_true_iff in Hkept.
      assert (Hex : existsb (fun o => backup_id b =? backup_id o) old = true).
      { apply existsb_exists. exists b. split; [|apply Z.eqb_refl].
        apply filter_In. split; [exact Hb|]. apply Z.ltb_lt. exact Hlt. }
      congruence.
    + cbn [backup_created_at]. unfold timedelta_days, seconds_per_day. lia.
  - intros b Hb Hrecent. rewrite Hlogs. apply in_or_app. left.
    apply filter_In. split; [exact Hb|]. apply negb_true_iff.
    apply not_true_is_false. intros Hex. apply existsb_exists in Hex.
    destruct Hex as [o [Ho Hid]]. apply filter_In in Ho. destruct Ho as [Ho Hold].
    apply Z.eqb_eq in Hid.
    assert (b = o) by (eapply same_key_same_row; eauto).
    subst o. apply Z.ltb_lt in Hold. lia.
  - intros Hnames. rewrite Hfiles. apply filter_In. split.
    + unfold Backup.copy_to. cbn [Utils.backup_files].
      destruct (existsb (String.eqb name) (Utils.backup_files st)) eqn:E.
      * apply existsb_exists in E. destruct E as [f [Hf Heq]].
        apply String.eqb_eq in Heq. subst f. exact Hf.
      * apply in_or_app. right. left. reflexivity.
    + apply negb_true_iff. apply not_true_is_false. intros Hex.
      apply existsb_exists in Hex. destruct Hex as [o [Ho Heq]].
      apply filter_In in Ho. destruct Ho as [Ho Hold].
      apply String.eqb_eq in Heq. apply Z.ltb_lt in Hold.
      exact (Hnames o Ho Hold Heq).
Qed.

(** X8.  A failed [create_backup] (a database that is not SQLite, or a copy
    that fails) raises again after it has recorded exactly one more row in
    the backup log, with status 'failed' and the name 'backup_<timestamp>';
    no row of the log is removed, the cleanup not being run; and
    [daily_backup_task] answers [True] exactly when the backup succeeded. *)
Theorem create_backup_failure_logged :
  forall (strftime : datetime -> string) (host : Backup.Host) (now : datetime)
         (st : Utils.Backups),
    (Backup.is_sqlite host && Backup.copy_ok host = false ->
     exists e row,
       fst (Backup.create_backup strftime host now st) = inr e
       /\ Utils.backup_logs (snd (Backup.create_backup strftime host now st))
          = Utils.backup_logs st ++ [row]
       /\ backup_status row = "failed"%string
       /\ filename row = ("backup_" ++ strftime now)%string
       /\ backup_created_at row = now
       /\ (e = Backup.NotImplementedError <-> Backup.is_sqlite host = false))
    /\ fst (Backup.daily_backup_task strftime host now st)
       = Backup.is_sqlite host && Backup.copy_ok host.
Proof.
  intros strftime host now st. split.
  - intros Hfail. unfold Backup.create_backup, Backup.log_backup.
    destruct (Backup.is_sqlite host); [destruct (Backup.copy_ok host); [discriminate|]|];
      eexists; eexists; (split; [reflexivity|]); (split; [reflexivity|]);
      repeat split; try discriminate; intros; reflexivity.
  - unfold Backup.daily_backup_task, Backup.create_backup.
    destruct (Backup.is_sqlite host); [destruct (Backup.copy_ok host)|]; reflexivity.
Qed.

Section MostRecent.

Let pick (best : option BackupLog) (b : BackupLog) : option BackupLog :=
  if String.eqb (backup_status b) "success"
  then match best with
       | Some b0 => if backup_created_at b0 <? backup_created_at b
                    then Some b else best
       | None => Some b
       end
  else best.

Lemma recent_from (l : list BackupLog) (best : option BackupLog) (m : BackupLog) :
  fold_left pick l best = Some m ->
  (In m l /\ backup_status m = "success"%string) \/ best = Some m.
Proof.
  revert best. induction l as [|x l IH]; intros best H; simpl in H.
  - right. exact H.
  - apply IH in H. destruct H as [[H1 H2]|H]; [left; split; [right|]; assumption|].
    unfold pick in H.
    destruct (String.eqb (backup_status x) "success") eqn:Hs; [|right; exact H].
    apply String.eqb_eq in Hs.
    destruct best as [b0|].
    + destruct (backup_created_at b0 <? backup_created_at x).
      * injection H as <-. left. split; [left; reflexivity|exact Hs].
      * right. exact H.
    + injection H as <-. left. split; [left; reflexivity|exact Hs].
Qed.

Lemma recent_at_least (l : list BackupLog) (b0 : BackupLog) :
  exists m, fold_left pick l (Some b0) = Some m
            /\ backup_created_at b0 <= backup_created_at m.
Proof.
  revert b0. induction l as [|x l IH]; intros b0; simpl.
  - exists b0. split; [reflexivity|lia].
  - unfold pick at 2.
    destruct (String.eqb (backup_status x) "success"); [|apply IH].
    destruct (Z.ltb_spec (backup_created_at b0) (backup_created_at x)); [|apply IH].
    destruct (IH x) as [m [Hm Hle]]. exists m. split; [exact Hm|lia].
Qed.

Lemma recent_dominates (l : list BackupLog) (best : option BackupLog) (b : BackupLog) :
  In b l -> backup_status b = "success"%string ->
  exists m, fold_left pick l best = Some m
            /\ backup_created_at b <= backup_created_at m.
Proof.
  revert best. induction l as [|x l IH]; intros best Hin Hs; [contradiction|].
  simpl. destruct Hin as [->|Hin]; [|apply IH; assumption].
  unfold pick at 2. rewrite Hs.
  change (String.eqb "success" "success") with true. cbv iota.
  destruct best as [b0|]; [|apply recent_at_least].
  destruct (Z.ltb_spec (backup_created_at b0) (backup_created_at b));
    [apply recent_at_least|].
  destruct (recent_at_least l b0) as [m [Hm Hle]]. exists m. split; [exact Hm|lia].
Qed.

End MostRecent.

(** X9.  [health_check] finds the system healthy exactly when the database
    answered, the disk is not known to have less than 1 GiB free, and some
    successful backup is at most seven days old; it reports 'No successful
    backups found' exactly when the log has no successful row. *)
Theorem health_check_healthy_iff :
  forall (probe : Backup.Probe) (now : datetime) (st : Utils.Backups),
    (Backup.healthy probe now st = true
     <-> Backup.db_ok probe = true
         /\ (exists b, In b (Utils.backup_logs st)
                       /\ backup_status b = "success"%string
                       /\ now - timedelta_days 7 <= backup_created_at b)
         /\ (forall free, Backup.disk_free probe = Some free -> 1024 ^ 3 <= free))
    /\ (In Backup.NoSuccessfulBackups (Backup.health_issues probe now st)
        <-> forall b, In b (Utils.backup_logs st) ->
                      backup_status b <> "success"%string).
Proof.
  intros probe now st.
  unfold Backup.healthy, Backup.health_issues, Utils.most_recent_success.
  destruct (fold_left _ (Utils.backup_logs st) None) as [m|] eqn:Hm.
  - pose proof (recent_from _ _ Hm) as [[Hin Hs]|Hbad]; [|discriminate].
    split.
    + split.
      * intros H.
        destruct (Backup.db_ok probe); [|discriminate]. split; [reflexivity|].
        destruct (Z.ltb_spec (backup_created_at m) (now - timedelta_days 7));
          [discriminate|].
        split; [exists m; repeat split; assumption|].
        intros free Hfree. rewrite Hfree in H.
        destruct (Z.ltb_spec free (1024 ^ 3)); [discriminate|assumption].
      * intros (Hdb & [b (Hb & Hbs & Hrecent)] & Hdisk).
        rewrite Hdb.
        destruct (recent_dominates _ None b Hb Hbs) as [m' [Hm' Hle]].
        rewrite Hm in Hm'. injection Hm' as <-.
        replace (backup_created_at m <? now - timedelta_days 7) with false
          by (symmetry; apply Z.ltb_ge; lia).
        destruct (Backup.disk_free probe) as [free|]; [|reflexivity].
        specialize (Hdisk free eq_refl).
        replace (free <? 1024 ^ 3) with false by (symmetry; apply Z.ltb_ge; lia).
        reflexivity.
    + split.
      * intros H. exfalso. apply in_app_or in H. destruct H as [H|H].
        { destruct (Backup.db_ok probe); simpl in H; [contradiction|].
          destruct H as [H|[]]. discriminate. }
        apply in_app_or in H. destruct H as [H|H].
        { destruct (backup_created_at m <? now - timedelta_days 7); simpl in H;
            [destruct H as [H|[]]; discriminate|contradiction]. }
        destruct (Backup.disk_free probe) as [free|]; [|contradiction].
        destruct (free <? 1024 ^ 3); simpl in H;
          [destruct H as [H|[]]; discriminate|contradiction].
      * intros H. exfalso. exact (H m Hin Hs).
  - split.
    + split.
      * intros H. exfalso. destruct (Backup.db_ok probe); simpl in H; discriminate.
      * intros (_ & [b (Hb & Hbs & _)] & _). exfalso.
        destruct (recent_dominates _ None b Hb Hbs) as [m' [Hm' _]]. congruence.
    + split.
      * intros _ b Hb Hbs.
        destruct (recent_dominates _ None b Hb Hbs) as [m' [Hm' _]]. congruence.
      * intros _. apply in_or_app. right. left. reflexivity.
Qed.

(** X10.  After a successful [create_backup], a [health_check] made within
    the next seven days raises no issue about backups. *)
Theorem health_check_after_backup :
  forall (strftime : datetime -> string) (host : Backup.Host) (probe : Backup.Probe)
         (now later : datetime) (st : Utils.Backups) (path : string)
         (st' : Utils.Backups),
    Backup.create_backup strftime host now st = (inl path, st') ->
    later - timedelta_days 7 <= now ->
    ~ In Backup.NoSuccessfulBackups (Backup.health_issues probe later st')
    /\ ~ In Backup.NoRecentBackups (Backup.health_issues probe later st').
Proof.
  intros strftime host probe now later st path st' H Hlater.
  destruct (create_backup_done _ _ _ _ H) as (_ & Hlogs & _).
  set (row := {| backup_id := Backup.next_backup_id st;
                 filename := Backup.backup_name (strftime now);
                 backup_status := "success"; backup_created_at := now |}) in *.
  assert (Hrow : In row (Utils.backup_logs st'))
    by (rewrite Hlogs; apply in_or_app; right; left; reflexivity).
  destruct (recent_dominates _ None row Hrow eq_refl) as [m [Hm Hle]].
  cbn [backup_created_at row] in Hle.
  unfold Backup.health_issues, Utils.most_recent_success. rewrite Hm.
  replace (backup_created_at m <? later - timedelta_days 7) with false
    by (symmetry; apply Z.ltb_ge; lia).
  split; intros Hin; apply in_app_or in Hin; destruct Hin as [Hin|Hin].
  - destruct (Backup.db_ok probe); simpl in Hin; [contradiction|].
    destruct Hin as [Hin|[]]. discriminate.
  - cbn [app] in Hin. destruct (Backup.disk_free probe) as [free|]; [|contradiction].
    match type of Hin with context [if ?c then _ else _] => destruct c end;
      [destruct Hin as [Hin|[]]; discriminate|contradiction].
  - destruct (Backup.db_ok probe); simpl in Hin; [contradiction|].
    destruct Hin as [Hin|[]]. discriminate.
  - cbn [app] in Hin. destruct (Backup.disk_free probe) as [free|]; [|contradiction].
    match type of Hin with context [if ?c then _ else _] => destruct c end;
      [destruct Hin as [Hin|[]]; discriminate|contradiction].
Qed.

(** ** Bearer tokens *)

Lemma split_word (t : string) (tail : option string) :
  spaceless t ->
  exists rest,
    Bearer.split Bearer.space (t ++ match tail with
                           | Some r => String Bearer.space r
                           | None => EmptyString
                           end)
    = t :: rest.
Proof.
  induction t as [|c t IH]; intros Hsp; simpl.
  - destruct tail as [r|]; simpl; eexists; reflexivity.
  - assert (Hc : Ascii.eqb c Bearer.space = false).
    { apply Ascii.eqb_neq. apply Hsp. left. reflexivity. }
    rewrite Hc.
    destruct IH as [rest Hrest].
    { intros c' Hc'. apply Hsp. right. exact Hc'. }
    rewrite Hrest. eexists. reflexivity.
Qed.

(** X11.  [jwt_required] reads the token as the text between 'Bearer ' and
    the next space; anything after that space is ignored.  An empty token is
    answered 'Token is missing', a token that does not verify 'Token is
    invalid or expired', and otherwise the view runs with the verified
    user; the view never runs for a token that does not verify. *)
Theorem jwt_required_bearer :
  forall (A : Type) (read : string -> Auth.Token) (cfg : Auth.Config)
         (users : list User) (now : datetime) (t : string) (tail : option string)
         (f : User -> A),
    spaceless t ->
    Bearer.jwt_required read cfg users now
      (Some ("Bearer " ++ t ++ match tail with
                               | Some r => String Bearer.space r
                               | None => EmptyString
                               end)%string) f
    = match t with
      | EmptyString => Ok Bearer.TokenMissing
      | _ => match Auth.verify_jwt_token cfg users now (read t) with
             | Raise e => Raise e
             | Ok None => Ok Bearer.TokenInvalid
             | Ok (Some user) => Ok (Bearer.Passed (f user))
             end
      end.
Proof.
  intros A read cfg users now t tail f Hsp.
  unfold Bearer.jwt_required.
  destruct (split_word tail Hsp) as [rest Hrest].
  assert (Hprefix : forall x, String.prefix "Bearer " ("Bearer " ++ x) = true).
  { intros x. cbn. destruct x; reflexivity. }
  rewrite Hprefix.
  assert (Hsplit : Bearer.split Bearer.space ("Bearer " ++ t ++ match tail with
                                                      | Some r => String Bearer.space r
                                                      | None => EmptyString
                                                      end)
                   = "Bearer"%string :: t :: rest).
  { cbn [String.append]. unfold Bearer.split at 1. fold Bearer.split.
    cbn [Ascii.eqb Bool.eqb Bearer.space andb]. rewrite Hrest. reflexivity. }
  rewrite Hsplit. cbn [nth_error]. destruct t; reflexivity.
Qed.

Lemma jwt_required_bearer_witness :
  Bearer.jwt_required (fun _ => Sample.untyped_token) Sample.config Sample.users
    Sample.wednesday_noon (Some "Bearer abc.def.ghi trailing"%string) user_id
  = Raise KeyError.
Proof.
  refine (@jwt_required_bearer Z (fun _ => Sample.untyped_token) Sample.config
            Sample.users Sample.wednesday_noon "abc.def.ghi"%string (Some "trailing"%string)
            user_id _).
  intros c Hc. simpl in Hc.
  repeat (destruct Hc as [<-|Hc]; [discriminate|]). contradiction.
Defined.

(** X12.  Without an Authorization header, with an empty one, or with one
    that does not start with 'Bearer ', [jwt_required] answers 'Token is
    missing' and neither verifies anything nor runs the view. *)
Theorem jwt_required_without_bearer :
  forall (A : Type) (read : string -> Auth.Token) (cfg : Auth.Config)
         (users : list User) (now : datetime) (auth_header : option string)
         (f : User -> A),
    match auth_header with
    | Some h => String.prefix "Bearer " h = false
    | None => True
    end ->
    Bearer.jwt_required read cfg users now auth_header f = Ok Bearer.TokenMissing.
Proof.
  intros A read cfg users now auth_header f H.
  unfold Bearer.jwt_required. destruct auth_header as [h|]; [|reflexivity].
  rewrite H. reflexivity.
Qed.

Lemma jwt_required_without_bearer_witness :
  Bearer.jwt_required (fun _ => Sample.untyped_token) Sample.config Sample.users
    Sample.wednesday_noon (Some "Basic c2FyYTpwdw=="%string) user_id
  = Ok Bearer.TokenMissing.
Proof.
  exact (@jwt_required_without_bearer Z (fun _ => Sample.untyped_token) Sample.config
           Sample.users Sample.wednesday_noon (Some "Basic c2FyYTpwdw=="%string)
           user_id eq_refl).
Defined.

Lemma get_user_unique (users : list User) (u : User) :
  NoDup (map user_id users) -> In u users ->
  Auth.get_user (user_id u) users = Some u.
Proof.
  intros Hnd Hin. unfold Auth.get_user.
  destruct (find (fun x => user_id x =? user_id u) users) as [x|] eqn:Hx.
  - apply find_some in Hx. destruct Hx as [Hx Hid]. apply Z.eqb_eq in Hid.
    f_equal. eapply same_key_same_row; eauto.
  - exfalso. apply (find_none _ _ Hx) in Hin. rewrite Z.eqb_refl in Hin. discriminate.
Qed.

(** X13.  [get_token] issues tokens only for an active user whose name and
    password match.  The access token it issues is accepted by
    [verify_jwt_token], for that same user, until the configured lifetime
    has passed, and refused from then on; the refresh token is never
    accepted as an access token; [expires_in] is the configured lifetime.
    (Times from the moment of issue on.) *)
Theorem get_token_round_trip :
  forall (password_ok : User -> string -> bool) (cfg : Auth.Config)
         (users : list User) (now : datetime) (data : option Bearer.Credentials)
         (access refresh : Auth.Token) (user : User) (expires_in : Z),
    NoDup (map user_id users) ->
    Bearer.get_token password_ok cfg users now data
    = Bearer.Issued access refresh user expires_in ->
    (exists d name password,
        data = Some d
        /\ Bearer.c_username d = Some name /\ Bearer.c_password d = Some password
        /\ In user users /\ username user = name /\ is_active user = true
        /\ password_ok user password = true)
    /\ expires_in = Auth.JWT_ACCESS_TOKEN_EXPIRES cfg
    /\ (forall dt, 0 <= dt ->
                   Auth.verify_jwt_token cfg users (now + dt) access
                   = if dt <? expires_in then Ok (Some user) else Ok None)
    /\ (forall later, now <= later ->
                      Auth.verify_jwt_token cfg users later refresh = Ok None).
Proof.
  intros password_ok cfg users now data access refresh user expires_in Hnd H.
  unfold Bearer.get_token in H.
  destruct data as [d|]; [|discriminate].
  destruct (Bearer.c_username d) as [name|] eqn:Hname; [|discriminate].
  destruct (Bearer.c_password d) as [password|] eqn:Hpw;
    [|destruct name; discriminate].
  destruct name as [|c0 name0]; [discriminate|].
  destruct password as [|p0 password0]; [discriminate|].
  cbn [Bearer.given] in H.
  destruct (Bearer.authenticate_user _ _ _ _) as [u|] eqn:Hauth; [|discriminate].
  injection H as <- <- <- <-.
  unfold Bearer.authenticate_user in Hauth.
  destruct (find _ users) as [x|] eqn:Hfind; [|discriminate].
  destruct (password_ok x (String p0 password0)) eqn:Hok; [|discriminate].
  injection Hauth as ->.
  apply find_some in Hfind. destruct Hfind as [Hin Hmatch].
  apply andb_true_iff in Hmatch. destruct Hmatch as [Hn Hact].
  apply String.eqb_eq in Hn.
  split; [|split; [reflexivity|split]].
  - exists d, (String c0 name0), (String p0 password0). repeat split; assumption.
  - intros dt _.
    unfold Auth.verify_jwt_token, Auth.jwt_decode, Auth.generate_jwt_token.
    cbn [Auth.claim_exp Auth.claim_type Auth.claim_user_id Auth.item].
    rewrite String.eqb_refl. cbn [negb].
    destruct (Z.ltb_spec dt (Auth.JWT_ACCESS_TOKEN_EXPIRES cfg)).
    + replace (now + Auth.JWT_ACCESS_TOKEN_EXPIRES cfg <=? now + dt) with false
        by (symmetry; apply Z.leb_gt; lia).
      cbn [Auth.claim_exp Auth.claim_type Auth.claim_user_id Auth.item].
      change (String.eqb "access" "access") with true. cbn [negb].
      rewrite (get_user_unique _ _ Hnd Hin), Hact. reflexivity.
    + replace (now + Auth.JWT_ACCESS_TOKEN_EXPIRES cfg <=? now + dt) with true
        by (symmetry; apply Z.leb_le; lia).
      reflexivity.
  - intros later _.
    unfold Auth.verify_jwt_token, Auth.jwt_decode, Auth.generate_refresh_token.
    cbn [Auth.claim_exp Auth.claim_type Auth.claim_user_id Auth.item].
    rewrite String.eqb_refl. cbn [negb].
    destruct (now + Auth.JWT_REFRESH_TOKEN_EXPIRES cfg <=? later); reflexivity.
Qed.

Lemma last_cons_default {A : Type} (y : A) (l : list A) (d d' : A) :
  last (y :: l) d = last (y :: l) d'.
Proof.
  revert y. induction l as [|z l IH]; intros y; [reflexivity|].
  change (last (z :: l) d = last (z :: l) d'). apply IH.
Qed.

(** X14.  The language kept in the session is always one the application
    supports: after any sequence of [set_user_language] calls on a new
    session, [get_user_language] returns the last requested language that
    is 'en' or 'ar', and 'en' when there was none; unsupported requests
    change nothing. *)
Theorem user_language_is_last_supported :
  forall (requests : list string),
    let session := fold_left Bearer.set_user_language requests Bearer.new_session in
    Bearer.get_user_language session
    = last (filter Bearer.supported requests) "en"%string
    /\ Bearer.supported (Bearer.get_user_language session) = true.
Proof.
  intros requests session.
  assert (Hgen : forall (l : list string) (s0 : Bearer.WebSession),
    Bearer.get_user_language (fold_left Bearer.set_user_language l s0)
    = last (filter Bearer.supported l) (Bearer.get_user_language s0)).
  { induction l as [|x l IH]; intros s0; [reflexivity|].
    cbn [fold_left filter]. rewrite IH. unfold Bearer.set_user_language.
    destruct (Bearer.supported x) eqn:Hx; [|reflexivity].
    cbn [Bearer.get_user_language Bearer.language].
    destruct (filter Bearer.supported l) as [|y l']; [reflexivity|].
    change (last (x :: y :: l') (Bearer.get_user_language s0))
      with (last (y :: l') (Bearer.get_user_language s0)).
    apply last_cons_default. }
  assert (Hlast : Bearer.get_user_language session
                  = last (filter Bearer.supported requests) "en"%string)
    by apply Hgen.
  split; [exact Hlast|]. rewrite Hlast.
  assert (Hall : forall x, In x (filter Bearer.supported requests) ->
                           Bearer.supported x = true)
    by (intros x Hx; apply filter_In in Hx; apply Hx).
  clear Hlast Hgen. revert Hall.
  generalize (filter Bearer.supported requests). intros l.
  induction l as [|y l IH]; intros Hall; [reflexivity|].
  destruct l as [|z l]; [apply Hall; left; reflexivity|].
  apply IH. intros x Hx. apply Hall. right. exact Hx.
Qed.

(** ** The ledger and the orders, request after request *)

Lemma refers_to_same_id (o o' : Order) (tx : Transaction) :
  order_id o' = order_id o -> Spec.refers_to o' tx = Spec.refers_to o tx.
Proof. intros H. unfold Spec.refers_to. rewrite H. reflexivity. Qed.

Lemma books_after_create
    (t : Tables) (o : Order) (lines : list OrderItem) (tx : Transaction) :
  books_in_order t ->
  order_id o = 1 + Spec.max_order_id t ->
  Forall (fun it => item_order_id it = order_id o) lines ->
  Spec.sale_of o tx ->
  books_in_order
    (union_rows t {| orders := [o]; order_items := lines; transactions := [tx] |}).
Proof.
  intros [Hknown Hsale] Hid Hlines Htx. split.
  - apply references_known_after_create; assumption.
  - intros x Hx. cbn [orders union_rows] in Hx. apply in_app_or in Hx.
    destruct Hx as [Hx|[<-|[]]].
    + destruct (Hsale x Hx) as [tx0 [Hl Hs]]. exists tx0. split; [|exact Hs].
      unfold Spec.ledger_of in *. cbn [transactions union_rows].
      rewrite filter_app, Hl. cbn [filter].
      destruct Htx as (_ & _ & _ & Hrt & Hrid).
      unfold Spec.refers_to at 1. rewrite Hrt, Hrid.
      pose proof (max_id_bound _ _ Hx) as Hle. unfold Spec.max_order_id in Hid.
      replace (order_id o =? order_id x) with false
        by (symmetry; apply Z.eqb_neq; lia).
      rewrite andb_false_r. reflexivity.
    + exists tx. split; [|exact Htx]. apply ledger_of_new; assumption.
Qed.

Lemma max_order_id_update (id : Z) (f : Order -> Order) (l : list Order) :
  (forall o, order_id (f o) = order_id o) ->
  map order_id (map (fun o => if order_id o =? id then f o else o) l)
  = map order_id l.
Proof.
  intros Hf. rewrite map_map. apply map_ext. intros o.
  destruct (order_id o =? id); [apply Hf|reflexivity].
Qed.

Lemma books_after_update (id : Z) (f : Order -> Order) (t : Tables) :
  (forall o, order_id (f o) = order_id o) ->
  (forall o, total_amount (f o) = total_amount o) ->
  books_in_order t ->
  books_in_order
    {| orders := map (fun o => if order_id o =? id then f o else o) (orders t);
       order_items := order_items t;
       transactions := transactions t |}.
Proof.
  intros Hid Htot [Hknown Hsale]. split.
  - unfold Spec.references_known, Spec.max_order_id in *.
    cbn [orders order_items transactions]. rewrite max_order_id_update by exact Hid.
    exact Hknown.
  - intros x Hx. cbn [orders] in Hx. apply in_map_iff in Hx.
    destruct Hx as [o [Hx Ho]]. destruct (Hsale o Ho) as [tx [Hl Hs]].
    assert (Hxid : order_id x = order_id o)
      by (destruct (order_id o =? id); subst x; [apply Hid|reflexivity]).
    assert (Hxtot : total_amount x = total_amount o)
      by (destruct (order_id o =? id); subst x; [apply Htot|reflexivity]).
    exists tx. split.
    + unfold Spec.ledger_of in *. cbn [transactions]. rewrite <- Hl.
      apply filter_ext. intros y. apply refers_to_same_id. exact Hxid.
    + unfold Spec.sale_of in *. rewrite Hxid, Hxtot. exact Hs.
Qed.

Lemma books_after_manual (t : Tables) (tx : Transaction) :
  reference_id tx = None ->
  books_in_order t ->
  books_in_order
    {| orders := orders t; order_items := order_items t;
       transactions := transactions t ++ [tx] |}.
Proof.
  intros Hnone [Hknown Hsale]. split.
  - unfold Spec.references_known, Spec.max_order_id in *.
    cbn [orders order_items transactions].
    apply andb_true_iff in Hknown. destruct Hknown as [H1 H2].
    rewrite H1, forallb_app, H2. cbn [forallb]. rewrite Hnone.
    destruct (reference_type tx); reflexivity.
  - intros o Ho. cbn [orders] in Ho. destruct (Hsale o Ho) as [tx0 [Hl Hs]].
    exists tx0. split; [|exact Hs].
    unfold Spec.ledger_of in *. cbn [transactions]. rewrite filter_app, Hl.
    cbn [filter]. unfold Spec.refers_to. rewrite Hnone.
    destruct (reference_type tx); reflexivity.
Qed.

Lemma tables_eta (t : Tables) :
  {| orders := orders t; order_items := order_items t;
     transactions := transactions t |} = t.
Proof. destruct t. reflexivity. Qed.

(** X15.  Request after request, every order keeps exactly one ledger
    entry, its sale.  If every order of the committed store has exactly one
    ledger entry referring to it, an income entry of category sales for the
    order's total, and stored references point at existing ids, then the
    same holds after any request to create an order (API or POS form), to
    update a status (API or POS form) or to enter a manual transaction,
    whatever the request answers. *)
Theorem one_sale_per_order_kept :
  forall (env : Env) (now : datetime) (uid : Z) (s : Session),
    Spec.clean s ->
    Spec.references_known (committed s) = true ->
    Books.one_sale_each (committed s) ->
    (forall data r s', Api.create_order env now uid data s = (r, s') ->
                       Spec.references_known (committed s') = true
                       /\ Books.one_sale_each (committed s'))
    /\ (forall form r s', Pos.new_order env now uid form s = (r, s') ->
                          Spec.references_known (committed s') = true
                          /\ Books.one_sale_each (committed s'))
    /\ (forall id body r s', Api.update_order_status env now id body s = (r, s') ->
                             Spec.references_known (committed s') = true
                             /\ Books.one_sale_each (committed s'))
    /\ (forall id csrf st r s',
           Pos.update_order_status env now id csrf st s = (r, s') ->
           Spec.references_known (committed s') = true
           /\ Books.one_sale_each (committed s'))
    /\ (forall form r s', Books.new_transaction env now uid form s = (r, s') ->
                          Spec.references_known (committed s') = true
                          /\ Books.one_sale_each (committed s')).
Proof.
  intros env now uid s Hclean Hknown Hsale.
  assert (Hinv : books_in_order (committed s)) by (split; assumption).
  destruct (nothing_committed_without_success env now uid s) as [Hapi Hpos].
  assert (Hupd : forall id st s1,
            Db.update_order_commit env id (Api.set_status st now) s = Ok s1 ->
            books_in_order (committed s1)).
  { intros id st s1 H1. unfold Db.update_order_commit in H1.
    destruct (commit_error env); [discriminate|]. injection H1 as <-.
    cbn [committed]. pose proof Hclean as Hc. unfold Spec.clean in Hc. rewrite Hc.
    cbn [orders order_items transactions no_rows]. rewrite !app_nil_r.
    apply books_after_update; [reflexivity..|exact Hinv]. }
  split; [|split; [|split; [|split]]].
  - intros data r s' H.
    destruct r as [ro| | | | |];
      try (rewrite (Hapi _ _ _ H) by (intros ro' Hro; discriminate); exact Hinv).
    destruct (create_order_created _ _ _ _ Hclean H)
      as (o & lines & tx & total & _ & Hcom & _ & Hid & _ & _ & _ & Hall & _ & Htx).
    rewrite Hcom. apply books_after_create; try assumption.
    eapply Forall_impl; [|exact Hall]. intros it [Hit _]. exact Hit.
  - intros form r s' H.
    destruct r as [n| | | | | |];
      try (rewrite (Hpos _ _ _ H) by (intros n' Hn; discriminate); exact Hinv).
    destruct (new_order_placed _ _ _ _ Hclean H)
      as (o & lines & tx & total & _ & Hcom & _ & Hid & _ & _ & _ & Hoid & _ & Htx).
    rewrite Hcom. apply books_after_create; assumption.
  - intros id body r s' H. unfold Api.update_order_status in H.
    destruct (Db.get_order id s); [|injection H as _ <-; exact Hinv].
    destruct body as [st|]; [|injection H as _ <-; exact Hinv].
    destruct (negb (Api.is_allowed st)); [injection H as _ <-; exact Hinv|].
    destruct (Db.update_order_commit env id (Api.set_status st now) s) as [s1|e] eqn:H1;
      injection H as _ <-; [exact (Hupd _ _ _ H1)|exact Hinv].
  - intros id csrf st r s' H. unfold Pos.update_order_status in H.
    destruct (Db.get_order id s); [|injection H as _ <-; exact Hinv].
    destruct (negb csrf); [injection H as _ <-; exact Hinv|].
    destruct st as [st|]; [|injection H as _ <-; exact Hinv].
    destruct (Api.is_allowed st); [|injection H as _ <-; exact Hinv].
    destruct (Db.update_order_commit env id (Api.set_status st now) s) as [s1|e] eqn:H1;
      injection H as _ <-; [exact (Hupd _ _ _ H1)|exact Hinv].
  - intros form r s' H. unfold Books.new_transaction in H.
    destruct (Books.form_valid form); [|injection H as _ <-; exact Hinv].
    unfold Db.commit in H.
    destruct (commit_error env); injection H as _ <-; [exact Hinv|].
    cbn [committed]. unfold Db.visible, Db.add_transaction, union_rows.
    cbn [committed pending Db.with_pending orders order_items transactions].
    unfold Spec.clean in Hclean. rewrite Hclean.
    cbn [orders order_items transactions no_rows app].
    rewrite !app_nil_r. apply books_after_manual; [reflexivity|exact Hinv].
Qed.

(** ** Order numbers, one request after the other *)

(** The order a successful request adds: its number is the generated one
    and it is dated now. *)
Lemma created_order_row
    (env : Env) (now : datetime) (uid : Z) (s : Session) :
  Spec.clean s ->
  (forall data r s',
      Api.create_order env now uid data s = (Api.Created r, s') ->
      exists o, orders (committed s') = orders (committed s) ++ [o]
                /\ order_number o = Utils.generate_order_number now s
                /\ created_at o = now)
  /\ (forall form n s',
         Pos.new_order env now uid form s = (Pos.OrderPlaced n, s') ->
         exists o, orders (committed s') = orders (committed s) ++ [o]
                   /\ order_number o = Utils.generate_order_number now s
                   /\ created_at o = now
                   /\ n = Utils.generate_order_number now s).
Proof.
  intros Hclean.
  destruct s as [catalog sets com pend fl].
  unfold Spec.clean in Hclean. cbn [pending] in Hclean. subst pend.
  set (s := {| products := catalog; settings := sets; committed := com;
               pending := no_rows; flushes := fl |}).
  split.
  - intros data r s' H. unfold Api.create_order in H.
    destruct (Api.d_items data) as [|d0 items0] eqn:Hitems; [discriminate|].
    rewrite <- Hitems in *. clear Hitems d0 items0.
    unfold Db.add_order_flush in H.
    destruct (existsb _ _); [discriminate|].
    destruct (flush_error env); [discriminate|].
    match type of H with
    | context [Api.add_items ?oid ?items ?t ?s1] =>
        destruct (Api.add_items oid items t s1) as [[missing|total] s2] eqn:Hloop
    end; [discriminate|].
    apply add_items_inv in Hloop.
    destruct Hloop as (_ & _ & H3 & _ & H5 & _).
    unfold Db.commit in H. destruct (commit_error env); [discriminate|].
    injection H as _ <-.
    cbn [products settings committed pending flushes orders order_items transactions
         Db.with_pending s no_rows app] in H3, H5.
    unfold Db.visible, Db.add_transaction, Db.update_pending_order, union_rows.
    cbn [products settings committed pending flushes orders order_items transactions
         Db.with_pending].
    rewrite H3, H5. cbn [map order_id]. rewrite Z.eqb_refl.
    eexists. split; [reflexivity|]. split; reflexivity.
  - intros form n s' H. unfold Pos.new_order in H.
    destruct (Pos.csrf_ok form); [|discriminate]. cbn [negb] in H.
    match type of H with
    | context [match ?d with Ok _ => _ | Raise _ => _ end] =>
        destruct d as [discount|]
    end; [|discriminate].
    destruct (Pos.f_product_ids form) as [|p0 ids0] eqn:Hids; [discriminate|].
    rewrite <- Hids in *. clear Hids p0 ids0.
    destruct (Pos.cart _ _ _ _ _ _) as [[total lines]|]; [|discriminate].
    destruct (Pos.arith _ Pos.PyFloat) as [total_repr|]; [|discriminate].
    destruct (Pos.arith total_repr _); [|discriminate].
    unfold Db.add_order_flush in H.
    destruct (existsb _ _); [discriminate|].
    destruct (flush_error env); [discriminate|].
    unfold Db.commit in H. destruct (commit_error env); [discriminate|].
    injection H as <- <-.
    match goal with
    | |- context [Pos.add_lines ?oid ?ls ?s1] =>
        destruct (add_lines_inv oid ls s1) as (_ & _ & H3 & _ & H5 & _)
    end.
    unfold Db.visible, Db.add_transaction, union_rows.
    cbn [products settings committed pending flushes orders order_items transactions
         Db.with_pending order_number].
    rewrite H3, H5.
    cbn [products settings committed pending flushes orders order_items transactions
         Db.with_pending s no_rows app].
    eexists. split; [reflexivity|]. repeat split.
Qed.

Lemma orders_of_day_snoc (d : date) (l : list Order) (o : Order)
    (items : list OrderItem) (txs : list Transaction)
    (items' : list OrderItem) (txs' : list Transaction) :
  (List.length (Books.orders_of_day d {| orders := l; order_items := items;
                                         transactions := txs |})
   <= List.length (Books.orders_of_day d {| orders := l ++ [o]; order_items := items';
                                            transactions := txs' |}))%nat.
Proof.
  unfold Books.orders_of_day. cbn [orders]. rewrite filter_app, length_app. lia.
Qed.

Lemma numbered_after_create (t : Tables) (o : Order) (now : datetime)
    (items : list OrderItem) (txs : list Transaction) :
  Books.numbered t = true ->
  created_at o = now ->
  order_number o
  = {| on_day := date_of now;
       on_seq := Z.of_nat (List.length (Books.orders_of_day (date_of now) t)) + 1 |} ->
  Books.numbered {| orders := orders t ++ [o]; order_items := items;
                    transactions := txs |} = true.
Proof.
  intros Hnum Hat Hno. unfold Books.numbered in *. cbn [orders].
  rewrite forallb_app. apply andb_true_iff. split.
  - rewrite forallb_forall in *. intros x Hx. specialize (Hnum x Hx).
    apply andb_true_iff in Hnum. destruct Hnum as [H12 H3].
    rewrite H12. cbn [andb]. apply Z.leb_le. apply Z.leb_le in H3.
    pose proof (orders_of_day_snoc (date_of (created_at x)) (orders t) o
                  (order_items t) (transactions t) items txs) as Hle.
    rewrite tables_eta in Hle. lia.
  - cbn [forallb]. rewrite Hno, Hat. cbn [on_day on_seq].
    rewrite Z.eqb_refl, andb_true_r. cbn [andb].
    apply andb_true_iff. split; [apply Z.leb_le; lia|]. apply Z.leb_le.
    unfold Books.orders_of_day. cbn [orders]. rewrite filter_app, length_app.
    cbn [filter]. rewrite Hat, Z.eqb_refl. cbn [List.length]. lia.
Qed.

Lemma generated_number_clean (now : datetime) (s : Session) :
  Spec.clean s ->
  Utils.generate_order_number now s
  = {| on_day := date_of now;
       on_seq := Z.of_nat (List.length (Books.orders_of_day (date_of now) (committed s)))
                 + 1 |}.
Proof.
  intros Hclean. unfold Utils.generate_order_number, Books.orders_of_day.
  rewrite (clean_visible Hclean). cbn [orders union_rows no_rows].
  rewrite app_nil_r. reflexivity.
Qed.

(** X16.  Created one request after the other, order numbers never
    collide.  When every stored order carries the day of its creation and a
    sequence value between 1 and the number of orders of that day, the
    number [generate_order_number] produces is not in use, the first order
    of a day gets the sequence value 1, and a successful creation through
    the API or the POS form leaves the stored numbers in the same shape. *)
Theorem sequential_order_numbers_are_fresh :
  forall (env : Env) (now : datetime) (uid : Z) (s : Session),
    Spec.clean s ->
    Books.numbered (committed s) = true ->
    Spec.number_taken now s = false
    /\ (Books.orders_of_day (date_of now) (committed s) = [] ->
        on_seq (Utils.generate_order_number now s) = 1)
    /\ (forall data r s',
           Api.create_order env now uid data s = (Api.Created r, s') ->
           Books.numbered (committed s') = true)
    /\ (forall form n s',
           Pos.new_order env now uid form s = (Pos.OrderPlaced n, s') ->
           Books.numbered (committed s') = true).
Proof.
  intros env now uid s Hclean Hnum.
  pose proof (generated_number_clean now Hclean) as Hgen.
  destruct (created_order_row env now uid Hclean) as [Hapi Hpos].
  split; [|split; [|split]].
  - unfold Spec.number_taken. rewrite Hgen, (clean_visible Hclean).
    cbn [orders union_rows no_rows]. rewrite app_nil_r.
    apply not_true_is_false. intros Hex. apply existsb_exists in Hex.
    destruct Hex as [o [Ho Heq]].
    unfold order_number_eqb in Heq. cbn [on_day on_seq] in Heq.
    apply andb_true_iff in Heq. destruct Heq as [Hday Hseq].
    apply Z.eqb_eq in Hday, Hseq.
    unfold Books.numbered in Hnum. rewrite forallb_forall in Hnum.
    specialize (Hnum o Ho). apply andb_true_iff in Hnum. destruct Hnum as [H12 H3].
    apply andb_true_iff in H12. destruct H12 as [H1 _].
    apply Z.eqb_eq in H1. apply Z.leb_le in H3.
    rewrite <- H1, Hday in H3. lia.
  - intros Hnone. rewrite Hgen, Hnone. reflexivity.
  - intros data r s' H. destruct (Hapi _ _ _ H) as (o & Horders & Hno & Hat).
    rewrite <- (tables_eta (committed s')), Horders.
    apply numbered_after_create with (now := now); [exact Hnum|exact Hat|].
    rewrite Hno. exact Hgen.
  - intros form n s' H. destruct (Hpos _ _ _ H) as (o & Horders & Hno & Hat & _).
    rewrite <- (tables_eta (committed s')), Horders.
    apply numbered_after_create with (now := now); [exact Hnum|exact Hat|].
    rewrite Hno. exact Hgen.
Qed.

(** ** Status updates leave the rest alone *)

Lemma unchanged_refl (o : Order) : Books.unchanged_by_update o o.
Proof. unfold Books.unchanged_by_update. repeat split. intros H. exact H. Qed.

Lemma unchanged_set_status (st : string) (now : datetime) (o : Order) :
  Books.unchanged_by_update o (Api.set_status st now o).
Proof.
  unfold Books.unchanged_by_update, Api.set_status. cbn.
  repeat split. intros H. destruct (String.eqb st "completed"); [discriminate|exact H].
Qed.

Lemma update_frame (id : Z) (st : string) (now : datetime) (l : list Order) :
  Forall2 (fun o o' => Books.unchanged_by_update o o' /\ (order_id o <> id -> o' = o))
          l (map (fun o => if order_id o =? id then Api.set_status st now o else o) l).
Proof.
  induction l as [|o l IH]; cbn [map]; constructor; [|exact IH].
  destruct (Z.eqb_spec (order_id o) id) as [Heq|Hne].
  - split; [apply unchanged_set_status|]. intros H. contradiction.
  - split; [apply unchanged_refl|]. reflexivity.
Qed.

Lemma frame_refl (id : Z) (l : list Order) :
  Forall2 (fun o o' => Books.unchanged_by_update o o' /\ (order_id o <> id -> o' = o))
          l l.
Proof.
  induction l as [|o l IH]; constructor; [|exact IH].
  split; [apply unchanged_refl|reflexivity].
Qed.

(** X17.  A status update touches nothing but the status, the update time
    and the completion time of the orders with the given id: whatever the
    handler answers, order items and ledger entries stay as they are, every
    other order is untouched, and the updated order keeps its id, number,
    customer, amounts, payment method, notes and creation time; a completion
    time, once set, is never cleared. *)
Theorem status_update_changes_only_status :
  forall (env : Env) (now : datetime) (id : Z) (s : Session),
    Spec.clean s ->
    (forall body r s',
        Api.update_order_status env now id body s = (r, s') ->
        order_items (committed s') = order_items (committed s)
        /\ transactions (committed s') = transactions (committed s)
        /\ Forall2 (fun o o' => Books.unchanged_by_update o o'
                                /\ (order_id o <> id -> o' = o))
                   (orders (committed s)) (orders (committed s')))
    /\ (forall csrf st r s',
           Pos.update_order_status env now id csrf st s = (r, s') ->
           order_items (committed s') = order_items (committed s)
           /\ transactions (committed s') = transactions (committed s)
           /\ Forall2 (fun o o' => Books.unchanged_by_update o o'
                                   /\ (order_id o <> id -> o' = o))
                      (orders (committed s)) (orders (committed s'))).
Proof.
  intros env now id s Hclean.
  assert (Hsame : order_items (committed s) = order_items (committed s)
                  /\ transactions (committed s) = transactions (committed s)
                  /\ Forall2 (fun o o' => Books.unchanged_by_update o o'
                                          /\ (order_id o <> id -> o' = o))
                             (orders (committed s)) (orders (committed s)))
    by (repeat split; apply frame_refl).
  assert (Hupd : forall st s1,
            Db.update_order_commit env id (Api.set_status st now) s = Ok s1 ->
            order_items (committed s1) = order_items (committed s)
            /\ transactions (committed s1) = transactions (committed s)
            /\ Forall2 (fun o o' => Books.unchanged_by_update o o'
                                    /\ (order_id o <> id -> o' = o))
                       (orders (committed s)) (orders (committed s1))).
  { intros st s1 H1. unfold Db.update_order_commit in H1.
    destruct (commit_error env); [discriminate|]. injection H1 as <-.
    cbn [committed orders order_items transactions].
    unfold Spec.clean in Hclean. rewrite Hclean.
    cbn [orders order_items transactions no_rows]. rewrite !app_nil_r.
    repeat split. apply update_frame. }
  split.
  - intros body r s' H. unfold Api.update_order_status in H.
    destruct (Db.get_order id s); [|injection H as _ <-; exact Hsame].
    destruct body as [st|]; [|injection H as _ <-; exact Hsame].
    destruct (negb (Api.is_allowed st)); [injection H as _ <-; exact Hsame|].
    destruct (Db.update_order_commit env id (Api.set_status st now) s) as [s1|e] eqn:H1;
      injection H as _ <-; [exact (Hupd _ _ H1)|exact Hsame].
  - intros csrf st r s' H. unfold Pos.update_order_status in H.
    destruct (Db.get_order id s); [|injection H as _ <-; exact Hsame].
    destruct (negb csrf); [injection H as _ <-; exact Hsame|].
    destruct st as [st|]; [|injection H as _ <-; exact Hsame].
    destruct (Api.is_allowed st); [|injection H as _ <-; exact Hsame].
    destruct (Db.update_order_commit env id (Api.set_status st now) s) as [s1|e] eqn:H1;
      injection H as _ <-; [exact (Hupd _ _ H1)|exact Hsame].
Qed.

(** ** The POS cart *)

(** X18.  The POS form cannot place an order that has a line.  The sum of
    the lines is a [Decimal] as soon as one product field is filled in, and
    the discount is a [float]: [total_amount -= discount_amount] raises.
    Likewise the float total of a form with blank fields only cannot be
    multiplied by the [Decimal] tax rate of a settings row.  In both cases,
    as for a field that is not a number or names no product, [new_order]
    rolls the session back and flashes 'Error creating order'. *)
Theorem new_order_filled_line_fails :
  forall (env : Env) (now : datetime) (uid : Z) (form : Pos.OrderForm)
         (s : Session),
    (exists t, In t (Pos.f_product_ids form) /\ t <> Pos.Blank)
    \/ (Pos.f_product_ids form <> [] /\ Db.first_settings s <> None) ->
    Pos.new_order env now uid form s = (Pos.CreateFailed, Db.rollback s).
Proof.
  intros env now uid form s Hcase. unfold Pos.new_order.
  destruct (Pos.csrf_ok form); [|reflexivity]. cbn [negb].
  match goal with
  | |- context [match ?d with Ok _ => _ | Raise _ => _ end] => destruct d as [discount|]
  end; [|reflexivity].
  destruct (Pos.f_product_ids form) as [|p0 ids0] eqn:Hids.
  { exfalso. destruct Hcase as [(t & [] & _)|[Hne _]]. apply Hne. reflexivity. }
  rewrite <- Hids in *. clear Hids p0 ids0.
  destruct (Pos.cart _ _ _ _ _ _) as [[total lines]|] eqn:Hcart; [|reflexivity].
  destruct lines as [|c lines]; [|reflexivity].
  apply cart_no_lines in Hcart. cbn [Pos.arith].
  destruct Hcase as [(t & Hin & Ht)|[_ Hrow]].
  - exfalso. apply Ht. rewrite Forall_forall in Hcart. apply Hcart. exact Hin.
  - destruct (Db.first_settings s); [reflexivity|contradiction].
Qed.

Lemma cart_blank (ids : list (Pos.text Z)) :
  forall (k : nat) (qs : list (Pos.text Z)) (total : Q) (lines : list Pos.CartLine)
         (s : Session),
    Forall (fun t => t = Pos.Blank) ids ->
    Pos.cart ids k qs total lines s = Ok (total, lines).
Proof.
  induction ids as [|x ids IH]; intros k qs total lines s Hall; [reflexivity|].
  inversion Hall as [|? ? Hx Hrest]; subst. cbn [Pos.cart]. apply IH. exact Hrest.
Qed.

(** X19.  A POS form whose product fields are all blank is not taken for
    an empty cart.  When the list of fields is not empty, the discount is a
    number and the storage layer accepts, [new_order] places an order that
    has no line at all, with a total of minus the discount and no tax, and
    posts a ledger entry of that amount, provided there is no settings row;
    with a settings row the product of the float total and the Decimal tax
    rate raises, and the handler rolls back and reports an error. *)
Theorem new_order_blank_fields_place_empty_order :
  forall (env : Env) (now : datetime) (uid : Z) (form : Pos.OrderForm)
         (s : Session) (discount : Q),
    Spec.clean s ->
    Pos.csrf_ok form = true ->
    Pos.f_discount_amount form = Some (Pos.Parsed discount) ->
    Pos.f_product_ids form <> [] ->
    Forall (fun t => t = Pos.Blank) (Pos.f_product_ids form) ->
    Spec.number_taken now s = false ->
    flush_error env = None ->
    commit_error env = None ->
    (Db.first_settings s = None ->
     exists s' o tx,
       Pos.new_order env now uid form s
       = (Pos.OrderPlaced (Utils.generate_order_number now s), s')
       /\ orders (committed s') = orders (committed s) ++ [o]
       /\ order_items (committed s') = order_items (committed s)
       /\ transactions (committed s') = transactions (committed s) ++ [tx]
       /\ total_amount o = Some (0 - discount + (0 - discount) * 0 / 100)%Q
       /\ tax_amount o = ((0 - discount) * 0 / 100)%Q
       /\ Some (amount tx) = total_amount o)
    /\ (Db.first_settings s <> None ->
        Pos.new_order env now uid form s = (Pos.CreateFailed, Db.rollback s)).
Proof.
  intros env now uid form s discount Hclean Hcsrf Hdisc Hne Hblank Hfree Hflush Hcommit.
  destruct s as [catalog sets com pend fl].
  unfold Spec.clean in Hclean. cbn [pending] in Hclean. subst pend.
  set (s := {| products := catalog; settings := sets; committed := com;
               pending := no_rows; flushes := fl |}) in *.
  unfold Pos.new_order. rewrite Hcsrf, Hdisc. cbn [negb Pos.number].
  destruct (Pos.f_product_ids form) as [|p0 ids0] eqn:Hids; [contradiction|].
  rewrite <- Hids in *.
  rewrite (cart_blank 0 (Pos.f_quantities form) 0%Q [] s Hblank).
  cbn [Pos.arith].
  destruct (Db.first_settings s) as [row|].
  - split; [discriminate|]. intros _. reflexivity.
  - split; [intros _|intros Hrow; contradiction].
    cbn [Pos.arith].
    unfold Db.add_order_flush. cbn [order_number].
    unfold Spec.number_taken in Hfree. rewrite Hfree, Hflush.
    unfold Db.commit. rewrite Hcommit.
    eexists. eexists. eexists. split; [reflexivity|].
    unfold Db.visible, Db.add_transaction, union_rows, Pos.add_lines.
    cbn [fold_left products settings committed pending flushes orders order_items
         transactions Db.with_pending s no_rows app].
    rewrite app_nil_r. repeat split.
Qed.

(** ** The API order loop *)



(** X21.  The POS handler never leaves rows pending: started on a session
    with nothing pending, [new_order] ends, whatever it answers, with
    nothing pending. *)
Theorem new_order_leaves_nothing_pending :
  forall (env : Env) (now : datetime) (uid : Z) (form : Pos.OrderForm)
         (s : Session) (r : Pos.response) (s' : Session),
    Spec.clean s ->
    Pos.new_order env now uid form s = (r, s') ->
    pending s' = no_rows.
Proof.
  intros env now uid form s r s' Hclean H.
  destruct r as [n| | | | | |].
  1: { destruct (new_order_placed _ _ _ _ Hclean H) as (? & ? & ? & ? & _ & _ & Hp & _).
       exact Hp. }
  2: { apply new_order_failure_rolled_back in H. apply H. }
  all: unfold Pos.new_order in H;
    destruct (Pos.csrf_ok form); cbn [negb] in H; [|discriminate];
    match type of H with
    | context [match ?d with Ok _ => _ | Raise _ => _ end] => destruct d as [discount|]
    end; [|discriminate];
    destruct (Pos.f_product_ids form);
      [try discriminate; injection H as <-; exact Hclean|];
    destruct (Pos.cart _ _ _ _ _ _) as [[total lines]|]; [|discriminate];
    destruct (Pos.arith _ Pos.PyFloat) as [total_repr|]; [|discriminate];
    destruct (Pos.arith total_repr _); [|discriminate];
    destruct (Db.add_order_flush _ _ _) as [[order|e] s1]; [|discriminate];
    destruct (Db.commit _ _); discriminate.
Qed.

(** ** Categories *)

(** X22.  [delete_category] never orphans a product.  It deletes nothing
    while any product, active or not, belongs to the category, also when
    the CSRF token is valid; when it does delete, it removes the rows of
    that id from the categories and nothing else; and if every product
    belonged to an existing category before, this is still so afterwards. *)
Theorem delete_category_keeps_products_housed :
  forall (env : Env) (csrf : bool) (id : Z) (sh : Catalog.Shelf)
         (r : Catalog.response) (sh' : Catalog.Shelf),
    Catalog.delete_category env csrf id sh = (r, sh') ->
    Catalog.shelf_products sh' = Catalog.shelf_products sh
    /\ (Catalog.products_of id sh <> [] -> r <> Catalog.CategoryDeleted)
    /\ (r <> Catalog.CategoryDeleted -> sh' = sh)
    /\ (r = Catalog.CategoryDeleted ->
        csrf = true
        /\ Catalog.categories sh'
           = filter (fun c => negb (Catalog.category_id c =? id)) (Catalog.categories sh))
    /\ (Catalog.categories_exist sh -> Catalog.categories_exist sh').
Proof.
  intros env csrf id sh r sh' H. unfold Catalog.delete_category in H.
  destruct (find (fun c => Catalog.category_id c =? id) (Catalog.categories sh))
    as [category|] eqn:Hfind.
  2: { injection H as <- <-. repeat split; try discriminate; auto. }
  apply find_some in Hfind. destruct Hfind as [Hin Hid]. apply Z.eqb_eq in Hid.
  rewrite Hid in H.
  destruct (Catalog.products_of id sh) as [|p ps] eqn:Hprods.
  2: { injection H as <- <-. repeat split; try discriminate; auto. }
  destruct csrf; cbn [negb] in H.
  2: { injection H as <- <-. repeat split; try discriminate; auto; try contradiction. }
  destruct (commit_error env).
  { injection H as <- <-. repeat split; try discriminate; auto; try contradiction. }
  injection H as <- <-. cbn [Catalog.shelf_products Catalog.categories].
  split; [reflexivity|]. split; [contradiction|]. split; [contradiction|].
  split; [split; reflexivity|].
  intros Hexist p Hp. cbn [Catalog.shelf_products] in Hp.
  destruct (Hexist p Hp) as [c [Hc Hcid]]. exists c. split; [|exact Hcid].
  cbn [Catalog.categories]. apply filter_In. split; [exact Hc|].
  apply negb_true_iff. apply Z.eqb_neq. intros Heq.
  assert (Hmember : In p (Catalog.products_of id sh)).
  { unfold Catalog.products_of. apply filter_In. split; [exact Hp|].
    apply Z.eqb_eq. congruence. }
  rewrite Hprods in Hmember. contradiction.
Qed.

(** ** Uploads *)

Lemma after_last_dotless (e : string) :
  dotless e -> Upload.after_last Upload.dot e = None.
Proof.
  induction e as [|c e IH]; intros Hd; [reflexivity|].
  cbn [Upload.after_last]. rewrite IH.
  - assert (Hc : Ascii.eqb c Upload.dot = false)
      by (apply Ascii.eqb_neq; apply Hd; left; reflexivity).
    rewrite Hc. reflexivity.
  - intros c' Hc'. apply Hd. right. exact Hc'.
Qed.

Lemma after_last_extension (base e : string) :
  dotless e ->
  Upload.after_last Upload.dot (base ++ String Upload.dot e) = Some e.
Proof.
  intros Hd. induction base as [|c base IH].
  - cbn [String.append Upload.after_last]. rewrite (after_last_dotless Hd).
    rewrite Ascii.eqb_refl. reflexivity.
  - cbn [String.append Upload.after_last]. rewrite IH. reflexivity.
Qed.

(** X23.  [validate_file_upload] judges a file by the text after the last
    full stop of its name and by its size.  A name 'base.ext', whatever
    'base' holds (further full stops, nothing at all), is valid exactly when
    the lower-cased 'ext' is among the allowed extensions and the size, if
    it can be read, does not exceed the limit; a non-empty name without a
    full stop is refused as having no extension. *)
Theorem validate_file_upload_by_last_extension :
  forall (lower : string -> string) (allowed_extensions : option (list string))
         (max_size : option Z) (size : option Z) (name : string),
    name <> EmptyString ->
    (dotless name ->
     Upload.validate_file_upload lower
       (Some {| Upload.file_name := Some name; Upload.file_size := size |})
       allowed_extensions max_size
     = Upload.NoFileExtension)
    /\ (forall base e,
           name = (base ++ String Upload.dot e)%string ->
           dotless e ->
           let allowed := match allowed_extensions with
                          | Some l => l
                          | None => Upload.default_extensions
                          end in
           let limit := match max_size with
                        | Some m => m
                        | None => Upload.default_max_size
                        end in
           Upload.validate_file_upload lower
             (Some {| Upload.file_name := Some name; Upload.file_size := size |})
             allowed_extensions max_size
           = if existsb (String.eqb (lower e)) allowed
             then match size with
                  | Some n => if limit <? n
                              then Upload.FileTooLarge (limit / (1024 * 1024))
                              else Upload.FileIsValid
                  | None => Upload.FileIsValid
                  end
             else Upload.InvalidFileType).
Proof.
  intros lower allowed_extensions max_size size name Hname.
  unfold Upload.validate_file_upload. cbn [Upload.file_name Upload.file_size].
  destruct name as [|c name]; [contradiction|]. split.
  - intros Hd. rewrite (after_last_dotless Hd). reflexivity.
  - intros base e Heq Hd. cbv zeta. rewrite Heq.
    rewrite (after_last_extension base Hd).
    destruct (existsb (String.eqb (lower e)) _); reflexivity.
Qed.

(** ** The properties above at concrete inputs *)


Lemma create_backup_keeps_new_backup_witness :
  In "laundry_pos_backup_20240110_120000.db"%string
     (Utils.backup_files (snd Fixture.backup_outcome))
  /\ forall b, In b (Utils.backup_logs (snd Fixture.backup_outcome)) ->
               Sample.wednesday_noon - timedelta_days 30 <= backup_created_at b.
Proof.
  destruct (@create_backup_keeps_new_backup Fixture.stamp Fixture.sqlite_host
              Sample.wednesday_noon Sample.one_old_backup
              "backups/laundry_pos_backup_20240110_120000.db"
              (snd Fixture.backup_outcome))
    as (_ & _ & Hrecent & _ & Hfile).
  - simpl. constructor; [intros []|constructor].
  - reflexivity.
  - split; [|exact Hrecent]. apply Hfile.
    intros b Hb _ Hname. simpl in Hb. destruct Hb as [<-|[]]. discriminate.
Defined.

Lemma health_check_after_backup_witness :
  ~ In Backup.NoSuccessfulBackups
       (Backup.health_issues Fixture.good_probe
          (Sample.wednesday_noon + timedelta_days 3) (snd Fixture.backup_outcome))
  /\ ~ In Backup.NoRecentBackups
         (Backup.health_issues Fixture.good_probe
            (Sample.wednesday_noon + timedelta_days 3) (snd Fixture.backup_outcome)).
Proof.
  refine (@health_check_after_backup Fixture.stamp Fixture.sqlite_host
            Fixture.good_probe Sample.wednesday_noon
            (Sample.wednesday_noon + timedelta_days 3) Sample.one_old_backup
            "backups/laundry_pos_backup_20240110_120000.db"
            (snd Fixture.backup_outcome) eq_refl _).
  vm_compute. discriminate.
Defined.

Lemma get_token_round_trip_witness :
  Auth.verify_jwt_token Sample.config Sample.users (Sample.wednesday_noon + 3600)
    (Auth.generate_jwt_token Sample.config Sample.wednesday_noon Sample.cashier)
  = Ok (Some Sample.cashier).
Proof.
  destruct (@get_token_round_trip Fixture.password_ok Sample.config Sample.users
              Sample.wednesday_noon Fixture.sara_logs_in
              (Auth.generate_jwt_token Sample.config Sample.wednesday_noon Sample.cashier)
              (Auth.generate_refresh_token Sample.config Sample.wednesday_noon
                 Sample.cashier)
              Sample.cashier 86400)
    as (_ & _ & Haccess & _).
  - simpl. constructor; [intros []|constructor].
  - reflexivity.
  - apply (Haccess 3600). discriminate.
Defined.

Lemma one_sale_per_order_kept_witness :
  Books.one_sale_each
    (committed (snd (Api.create_order storage_ok (Sample.wednesday_noon + 60) 2
                       Sample.two_shirts Fixture.shop_after_order))).
Proof.
  destruct (@one_sale_per_order_kept storage_ok (Sample.wednesday_noon + 60) 2
              Fixture.shop_after_order) as [Hapi _].
  - reflexivity.
  - reflexivity.
  - intros o Ho. vm_compute in Ho. destruct Ho as [<-|[]].
    eexists. split; [vm_compute; reflexivity|]. repeat split.
  - exact (proj2 (Hapi Sample.two_shirts _ _ eq_refl)).
Defined.

Lemma sequential_order_numbers_are_fresh_witness :
  Spec.number_taken (Sample.wednesday_noon + 60) Fixture.shop_after_order = false.
Proof.
  exact (proj1 (@sequential_order_numbers_are_fresh storage_ok
                  (Sample.wednesday_noon + 60) 2 Fixture.shop_after_order
                  eq_refl eq_refl)).
Defined.

Lemma status_update_changes_only_status_witness :
  transactions
    (committed (snd (Api.update_order_status storage_ok Sample.wednesday_noon 1
                       (Some "cancelled"%string) Fixture.shop_after_order)))
  = transactions (committed Fixture.shop_after_order).
Proof.
  destruct (@status_update_changes_only_status storage_ok Sample.wednesday_noon 1
              Fixture.shop_after_order eq_refl) as [Hapi _].
  exact (proj1 (proj2 (Hapi (Some "cancelled"%string) _ _ eq_refl))).
Defined.

Lemma new_order_filled_line_fails_witness :
  Pos.new_order storage_ok Sample.wednesday_noon 2 Sample.two_shirts_form Sample.shop
  = (Pos.CreateFailed, Db.rollback Sample.shop).
Proof.
  apply (@new_order_filled_line_fails storage_ok Sample.wednesday_noon 2
           Sample.two_shirts_form Sample.shop).
  left. exists (Pos.Parsed 1). split; [left; reflexivity|discriminate].
Defined.

Lemma new_order_blank_fields_place_empty_order_witness :
  exists s' o tx,
    Pos.new_order storage_ok Sample.wednesday_noon 2 Fixture.blank_form
      Sample.shop_without_settings
    = (Pos.OrderPlaced (Utils.generate_order_number Sample.wednesday_noon
                          Sample.shop_without_settings),
       s')
    /\ orders (committed s') = orders (committed Sample.shop_without_settings) ++ [o]
    /\ order_items (committed s') = order_items (committed Sample.shop_without_settings)
    /\ transactions (committed s')
       = transactions (committed Sample.shop_without_settings) ++ [tx]
    /\ total_amount o = Some (0 - 5 + (0 - 5) * 0 / 100)%Q
    /\ tax_amount o = ((0 - 5) * 0 / 100)%Q
    /\ Some (amount tx) = total_amount o.
Proof.
  refine (proj1 (@new_order_blank_fields_place_empty_order storage_ok
                   Sample.wednesday_noon 2 Fixture.blank_form
                   Sample.shop_without_settings 5%Q eq_refl eq_refl eq_refl _ _
                   eq_refl eq_refl eq_refl) eq_refl).
  - discriminate.
  - repeat constructor.
Defined.


Lemma new_order_leaves_nothing_pending_witness :
  pending (snd (Pos.new_order storage_ok Sample.wednesday_noon 2
                  Fixture.shirt_and_unknown_form Sample.shop)) = no_rows.
Proof.
  exact (@new_order_leaves_nothing_pending storage_ok Sample.wednesday_noon 2
           Fixture.shirt_and_unknown_form Sample.shop _ _ eq_refl eq_refl).
Defined.

Lemma delete_category_keeps_products_housed_witness :
  snd (Catalog.delete_category storage_ok true 1 Fixture.shelf) = Fixture.shelf
  /\ Catalog.categories_exist
       (snd (Catalog.delete_category storage_ok true 2 Fixture.shelf)).
Proof.
  split.
  - destruct (@delete_category_keeps_products_housed storage_ok true 1 Fixture.shelf
                _ _ eq_refl) as (_ & _ & Hsame & _).
    apply Hsame. discriminate.
  - destruct (@delete_category_keeps_products_housed storage_ok true 2 Fixture.shelf
                _ _ eq_refl) as (_ & _ & _ & _ & Hexist).
    apply Hexist. intros p Hp. simpl in Hp. destruct Hp as [<-|[]].
    eexists. split; [left; reflexivity|reflexivity].
Defined.

Lemma validate_file_upload_by_last_extension_witness :
  Upload.validate_file_upload (fun e => e)
    (Some {| Upload.file_name := Some "photo.final.png"%string;
             Upload.file_size := Some 2048 |})
    None None
  = Upload.FileIsValid.
Proof.
  refine (proj2 (@validate_file_upload_by_last_extension (fun e => e) None None
                   (Some 2048) "photo.final.png"%string _)
                "photo.final"%string "png"%string eq_refl _).
  - discriminate.
  - intros c Hc. simpl in Hc.
    repeat (destruct Hc as [<-|Hc]; [discriminate|]). contradiction.
Defined.
